(** * sniffTraffic.py: incremental traffic dataset and dashboard

    A shallow embedding of [src/sniffTraffic.py].  The script fetches the
    daily clone and view series of a GitHub repository, merges them into a
    date-indexed table, appends the dates that are new to
    [traffic_data.csv], and renders an HTML dashboard.

    What the script delegates to pandas, requests, plotly and jinja2 is
    modelled by its observable effect on the data the script looks at:
    - a table is a list of column names and a list of typed rows; a metric
      cell is [option Z], [None] standing for pandas' NaN.  pandas holds a
      column with a NaN as float64, which carries integers exactly up to
      2^53 in magnitude: a cell of the model is the numeric value of the
      script's cell as long as the metrics are in that range
      ([exact_metric]), and the statements about metric values assume
      it; the statements about dates, files and effects do not need it;
    - [to_csv] followed by [read_csv] hands the table back with its dates
      (ISO text, [parse_dates], [.dt.date]), so a CSV file holds a table;
      on a table without a row the date accessor raises;
    - a failing HTTP request, a missing dict key, a page that plotly or
      jinja2 refuse to render and [sys.exit] are exceptions, threaded
      through a state-and-error monad whose state is the file system and
      the trace of external effects. *)

From Stdlib Require Import ZArith List String Bool Lia Sorting.Sorted
  Sorting.Permutation DecimalString.
Import ListNotations.
Local Open Scope string_scope.
Local Open Scope list_scope.
Local Open Scope Z_scope.

(** ** Calendar dates ([datetime.date]) *)

Record Date := mkDate { year : Z; month : Z; day : Z }.

(** [datetime.date] compares by (year, month, day). *)
Definition date_compare (a b : Date) : comparison :=
  match year a ?= year b with
  | Eq => match month a ?= month b with
          | Eq => day a ?= day b
          | c => c
          end
  | c => c
  end.

Definition date_eqb (a b : Date) : bool :=
  match date_compare a b with Eq => true | _ => false end.

Definition date_leb (a b : Date) : bool :=
  match date_compare a b with Gt => false | _ => true end.

Definition date_lt (a b : Date) : Prop := date_compare a b = Lt.

Definition date_le (a b : Date) : Prop := date_leb a b = true.

(** An API timestamp such as [2024-01-01T00:00:00Z]. *)
Record Timestamp := mkTimestamp
  { ts_date : Date; ts_hour : Z; ts_minute : Z; ts_second : Z }.

(** [pd.to_datetime(ts).dt.date]: the time of day is dropped. *)
Definition to_date (t : Timestamp) : Date := ts_date t.

(** ** Records and tables *)

(** One element of the [clones] / [views] list of the traffic API. *)
Record RawRecord := mkRaw
  { timestamp : Timestamp; count : Z; uniques : Z }.

(** One element of the popular-referrers list. *)
Record ReferrerRecord := mkReferrer
  { referrer : string; ref_count : Z; ref_uniques : Z }.

(** A row of [df_cl[['date','count','uniques']]]. *)
Record SeriesRow := mkSeries
  { s_date : Date; s_count : Z; s_uniques : Z }.

(** A row of the five-column table. *)
Record TrafficRow := mkRow
  { date : Date;
    clones : option Z;
    clones_uniques : option Z;
    views : option Z;
    views_uniques : option Z }.

Record DataFrame := mkFrame
  { columns : list string; rows : list TrafficRow }.

Definition dates (l : list TrafficRow) : list Date := map date l.

Definition series_dates (l : list SeriesRow) : list Date := map s_date l.

(** [Series.isin]: membership of a date in a column. *)
Definition isin (d : Date) (col : list Date) : bool :=
  existsb (date_eqb d) col.

(** ** [sort_values('date')] *)

(** Rows come back in ascending date order.  pandas leaves the order
    among rows of one date to the sorting algorithm; here they keep their
    relative order, and the statements about the script hold for any
    other choice. *)
Fixpoint insert_by_date (r : TrafficRow) (l : list TrafficRow)
  : list TrafficRow :=
  match l with
  | [] => [r]
  | x :: l' =>
      if date_leb (date r) (date x) then r :: l
      else x :: insert_by_date r l'
  end.

Fixpoint sort_rows (l : list TrafficRow) : list TrafficRow :=
  match l with
  | [] => []
  | r :: l' => insert_by_date r (sort_rows l')
  end.

Definition sort_values (df : DataFrame) : DataFrame :=
  mkFrame (columns df) (sort_rows (rows df)).

(** ** [pd.merge(..., on='date', how='outer', suffixes=('_clones','_views'))] *)

Definition matching (d : Date) (l : list SeriesRow) : list SeriesRow :=
  filter (fun r => date_eqb (s_date r) d) l.

(** A left row is paired with every right row of its date, or with NaN
    when there is none. *)
Definition join_left (right : list SeriesRow) (l : SeriesRow)
  : list TrafficRow :=
  match matching (s_date l) right with
  | [] => [mkRow (s_date l) (Some (s_count l)) (Some (s_uniques l)) None None]
  | ms => map (fun r => mkRow (s_date l) (Some (s_count l))
                          (Some (s_uniques l))
                          (Some (s_count r)) (Some (s_uniques r))) ms
  end.

(** Right rows whose date no left row has: the left metrics are NaN. *)
Definition right_only (left right : list SeriesRow) : list TrafficRow :=
  map (fun r => mkRow (s_date r) None None
                  (Some (s_count r)) (Some (s_uniques r)))
      (filter (fun r => negb (isin (s_date r) (series_dates left))) right).

Definition merged_columns : list string :=
  ["date"; "count_clones"; "uniques_clones"; "count_views"; "uniques_views"].

(** pandas hands an outer join back ordered by key; the script sorts by
    date right after, so the order chosen here is not observable. *)
Definition merge_outer (left right : list SeriesRow) : DataFrame :=
  mkFrame merged_columns
          (flat_map (join_left right) left ++ right_only left right).

(** [df.columns = names] *)
Definition set_columns (names : list string) (df : DataFrame) : DataFrame :=
  mkFrame names (rows df).

(** [df[mask]] *)
Definition select_rows (keep : TrafficRow -> bool) (df : DataFrame)
  : DataFrame :=
  mkFrame (columns df) (filter keep (rows df)).

(** [df.empty] *)
Definition empty (df : DataFrame) : bool :=
  match columns df, rows df with
  | [], _ => true
  | _, [] => true
  | _, _ => false
  end.

Definition has_column (names : list string) (c : string) : bool :=
  existsb (String.eqb c) names.

(** [pd.concat([a, b], ignore_index=True)]: the columns of [a], then
    those of [b] that [a] lacks; the rows of [a], then those of [b]. *)
Definition concat (a b : DataFrame) : DataFrame :=
  mkFrame (columns a ++
             filter (fun c => negb (has_column (columns a) c)) (columns b))
          (rows a ++ rows b).

(** ** Constants of the script *)

Definition CSV_FILE : string := "traffic_data.csv".

Definition csv_columns : list string :=
  ["date"; "clones"; "clones_uniques"; "views"; "views_uniques"].

(** [BASE_API.format(owner=owner, repo=repo)] *)
Definition BASE_API (owner repo : string) : string :=
  ("https://api.github.com/repos/" ++ owner ++ "/" ++ repo)%string.

(** The header line [to_csv(index=False)] writes. *)
Definition header_line (df : DataFrame) : string :=
  String.concat "," (columns df).

(** ** Exceptions, effects and the monad *)

Inductive exn :=
| HTTPError (status : Z)       (* resp.raise_for_status() *)
| ConnectionError              (* requests.get could not reach the host *)
| KeyError (key : string)      (* df['timestamp'] on a frame without it *)
| ParserError                  (* read_csv on a file that is no table *)
| AttributeError               (* .dt on a date column without a row *)
| TemplateError                (* jinja2 or plotly refusing to render *)
| FileNotFoundError
| SystemExit (code : Z).       (* sys.exit(code) *)

Inductive result (A : Type) :=
| Ok (a : A)
| Err (e : exn).
Arguments Ok {A} a.
Arguments Err {A} e.

(** What the script prints. *)
Inductive message :=
| MsgUsage
| MsgToken
| MsgAdded (n : nat)
| MsgNoNew
| MsgCreated (n : nat)
| MsgDashboard (output_file : string).

Definition decimal (n : nat) : string :=
  NilEmpty.string_of_uint (Nat.to_uint n).

Definition message_text (m : message) : string :=
  (match m with
   | MsgUsage => "Usage: python get_traffic_dashboard.py <owner> <repo>"
   | MsgToken => "Erreur: définir GITHUB_TOKEN"
   | MsgAdded n =>
       "Ajout de " ++ decimal n ++ " nouvelles lignes au CSV : " ++ CSV_FILE
   | MsgNoNew => "Aucune nouvelle donnée à ajouter au CSV."
   | MsgCreated n =>
       "CSV créé avec " ++ decimal n ++ " lignes : " ++ CSV_FILE
   | MsgDashboard f => "Dashboard HTML généré : " ++ f
   end)%string.

Inductive event :=
| Print (m : message)
| HttpGet (url : string)
| PathExists (path : string)
| FileRead (path : string)
| FileWrite (path : string).

Inductive file :=
| Table (df : DataFrame)
| Text (s : string).

Definition FS := string -> option file.

Definition write (p : string) (f : file) (fs : FS) : FS :=
  fun q => if String.eqb q p then Some f else fs q.

(** A computation reads and changes the file system, and yields a value
    or raises, together with the external effects it performed. *)
Definition M (A : Type) : Type := FS -> result A * FS * list event.

Definition ret {A} (a : A) : M A := fun fs => (Ok a, fs, []).

Definition raise {A} (e : exn) : M A := fun fs => (Err e, fs, []).

Definition bind {A B} (m : M A) (k : A -> M B) : M B :=
  fun fs =>
    match m fs with
    | (Ok a, fs1, t1) =>
        match k a fs1 with
        | (r, fs2, t2) => (r, fs2, t1 ++ t2)
        end
    | (Err e, fs1, t1) => (Err e, fs1, t1)
    end.

Notation "x <- m ;; k" := (bind m (fun x => k))
  (at level 61, m at next level, right associativity).
Notation "m ;;; k" := (bind m (fun _ => k))
  (at level 61, right associativity).

Definition lift {A} (r : result A) : M A := fun fs => (r, fs, []).

Definition print (m : message) : M unit :=
  fun fs => (Ok tt, fs, [Print m]).

(** [os.path.exists] *)
Definition path_exists (p : string) : M bool :=
  fun fs => (Ok (match fs p with Some _ => true | None => false end),
             fs, [PathExists p]).

(** A table without a row, as read from a file with a header only. *)
Definition no_rows (df : DataFrame) : bool :=
  match rows df with
  | [] => true
  | _ => false
  end.

(** [pd.read_csv(p, parse_dates=['date'])] and the [.dt.date] after it: on
    a table without a row the date column is not a datetime column and
    [.dt] raises. *)
Definition read_csv (p : string) : M DataFrame :=
  fun fs =>
    (match fs p with
     | Some (Table df) => if no_rows df then Err AttributeError else Ok df
     | Some (Text _) => Err ParserError
     | None => Err FileNotFoundError
     end, fs, [FileRead p]).

(** [df.to_csv(p, index=False)] *)
Definition to_csv (df : DataFrame) (p : string) : M unit :=
  fun fs => (Ok tt, write p (Table df) fs, [FileWrite p]).

(** [with open(p, 'w') as f: f.write(s)] *)
Definition write_text (p : string) (s : string) : M unit :=
  fun fs => (Ok tt, write p (Text s) fs, [FileWrite p]).

(** ** The traffic API *)

Inductive response (A : Type) :=
| Reply (body : A)          (* a success status and its JSON body *)
| Failure (status : Z)      (* a 4xx or 5xx status *)
| Unreachable.              (* no response at all *)
Arguments Reply {A} body.
Arguments Failure {A} status.
Arguments Unreachable {A}.

(** What the platform answers to a GET on a URL with a token.  The body
    of the two traffic endpoints is a dict; its field here is the value
    under ['clones'] (or ['views']), [None] when the key is missing. *)
Record Network := mkNetwork
  { traffic_clones : string -> string -> response (option (list RawRecord));
    traffic_views : string -> string -> response (option (list RawRecord));
    popular_referrers : string -> string -> response (list ReferrerRecord) }.

Definition request_json {A} (serve : string -> string -> response A)
  (url token : string) : M A :=
  fun fs =>
    (match serve url token with
     | Reply body => Ok body
     | Failure status => Err (HTTPError status)
     | Unreachable => Err ConnectionError
     end, fs, [HttpGet url]).

(** [d.get(key, [])] *)
Definition get_or_empty {A} (v : option (list A)) : list A :=
  match v with
  | Some l => l
  | None => []
  end.

(** [df = pd.DataFrame(records)] followed by
    [df['date'] = pd.to_datetime(df['timestamp']).dt.date] and the
    selection [df[['date','count','uniques']]].  A frame built from an
    empty list has no column at all, so ['timestamp'] is a missing key. *)
Definition with_date (records : list RawRecord) : result (list SeriesRow) :=
  match records with
  | [] => Err (KeyError "timestamp")
  | _ => Ok (map (fun r => mkSeries (to_date (timestamp r))
                             (count r) (uniques r)) records)
  end.

(** Lines 68-77: the new-data table. *)
Definition new_data (clones views : list RawRecord) : result DataFrame :=
  match with_date clones with
  | Err e => Err e
  | Ok df_cl =>
      match with_date views with
      | Err e => Err e
      | Ok df_vw =>
          Ok (set_columns csv_columns (sort_values (merge_outer df_cl df_vw)))
      end
  end.

Definition fetch_and_update_csv (net : Network) (owner repo token : string)
  : M DataFrame :=
  clones <- request_json (traffic_clones net)
              (BASE_API owner repo ++ "/traffic/clones")%string token ;;
  views <- request_json (traffic_views net)
             (BASE_API owner repo ++ "/traffic/views")%string token ;;
  df_new <- lift (new_data (get_or_empty clones) (get_or_empty views)) ;;
  found <- path_exists CSV_FILE ;;
  if found then
    df_exist <- read_csv CSV_FILE ;;
    let df_append :=
      select_rows (fun r => negb (isin (date r) (dates (rows df_exist))))
                  df_new in
    if negb (empty df_append) then
      let df_updated := sort_values (concat df_exist df_append) in
      to_csv df_updated CSV_FILE ;;;
      print (MsgAdded (List.length (rows df_append))) ;;;
      ret df_updated
    else
      print MsgNoNew ;;;
      ret df_exist
  else
    to_csv df_new CSV_FILE ;;;
    print (MsgCreated (List.length (rows df_new))) ;;;
    ret df_new.

Definition fetch_referrers (net : Network) (owner repo token : string)
  : M (list ReferrerRecord) :=
  request_json (popular_referrers net)
    (BASE_API owner repo ++ "/traffic/popular/referrers")%string token.

(** What one invocation of the script is given. *)
Record Env := mkEnv
  { argv : list string;                    (* sys.argv *)
    GITHUB_TOKEN : option string;          (* os.getenv('GITHUB_TOKEN') *)
    network : Network;
    now : string;                          (* datetime.now().strftime(...) *)
    (* what plotly and jinja2 make of owner, repo, df, df_ref and
       page_date: the page, or none when they raise (owner and repo are
       pasted into the source of the template, which jinja2 may refuse) *)
    render : string -> string -> DataFrame -> list ReferrerRecord ->
             string -> option string }.

Definition build_dashboard (e : Env) (owner repo : string) (df : DataFrame)
  (df_ref : list ReferrerRecord) (page_date output_file : string) : M unit :=
  html <- match render e owner repo df df_ref page_date with
          | Some html => ret html
          | None => raise TemplateError
          end ;;
  write_text output_file html ;;;
  print (MsgDashboard output_file).

(** The [__main__] block. *)
Definition main (e : Env) : M unit :=
  if negb (Nat.eqb (List.length (argv e)) 3) then
    print MsgUsage ;;;
    raise (SystemExit 1)
  else
    let owner := nth 1 (argv e) EmptyString in
    let repo := nth 2 (argv e) EmptyString in
    match GITHUB_TOKEN e with
    | None | Some EmptyString =>
        print MsgToken ;;;
        raise (SystemExit 1)
    | Some token =>
        df <- fetch_and_update_csv (network e) owner repo token ;;
        df_ref <- fetch_referrers (network e) owner repo token ;;
        let page_date := now e in
        let out := "main.html" in
        build_dashboard e owner repo df df_ref page_date out
    end.

(** The status the interpreter exits with. *)
Definition exit_status {A} (r : result A) : Z :=
  match r with
  | Ok _ => 0
  | Err (SystemExit code) => code
  | Err _ => 1
  end.

(** Components of the outcome of a computation started on [fs]. *)
Definition outcome {A} (x : result A * FS * list event) : result A :=
  fst (fst x).
Definition files {A} (x : result A * FS * list event) : FS :=
  snd (fst x).
Definition effects {A} (x : result A * FS * list event) : list event :=
  snd x.

(** The rows of the persisted dataset, none when there is no file. *)
Definition persisted (fs : FS) : list TrafficRow :=
  match fs CSV_FILE with
  | Some (Table df) => rows df
  | _ => []
  end.

(** ** Vocabulary of the statements *)

(** The calendar date of a fetched record. *)
Definition record_date (r : RawRecord) : Date := to_date (timestamp r).

(** The rows a table holds for one date. *)
Definition rows_on (d : Date) (l : list TrafficRow) : list TrafficRow :=
  filter (fun r => date_eqb (date r) d) l.

(** The fetched records of one date. *)
Definition records_on (d : Date) (l : list RawRecord) : list RawRecord :=
  filter (fun r => date_eqb (record_date r) d) l.

(** The URLs of the three requests. *)
Definition clones_url (owner repo : string) : string :=
  (BASE_API owner repo ++ "/traffic/clones")%string.
Definition views_url (owner repo : string) : string :=
  (BASE_API owner repo ++ "/traffic/views")%string.
Definition referrers_url (owner repo : string) : string :=
  (BASE_API owner repo ++ "/traffic/popular/referrers")%string.

(** [df_append] of [fetch_and_update_csv]: the rows of the new-data table
    whose date the persisted table lacks. *)
Definition new_rows (df_exist df_new : DataFrame) : DataFrame :=
  select_rows (fun r => negb (isin (date r) (dates (rows df_exist)))) df_new.

(** A fetched series with at most one record per calendar date. *)
Definition unique_dates (l : list RawRecord) : Prop :=
  NoDup (map record_date l).

Definition reply_unique (r : response (option (list RawRecord))) : Prop :=
  match r with
  | Reply (Some l) => unique_dates l
  | _ => True
  end.

(** The platform never answers with two records of one date. *)
Definition one_record_per_date (net : Network) : Prop :=
  forall url token,
    reply_unique (traffic_clones net url token) /\
    reply_unique (traffic_views net url token).

(** A request that did not come back with a body. *)
Definition failed {A} (r : response A) : Prop :=
  match r with
  | Reply _ => False
  | _ => True
  end.

(** The file system after a sequence of invocations, whatever their
    outcomes. *)
Fixpoint run_all (es : list Env) (fs : FS) : FS :=
  match es with
  | [] => fs
  | e :: es' => run_all es' (files (main e fs))
  end.

(** Strictly ascending dates. *)
Definition strictly_ascending (l : list TrafficRow) : Prop :=
  StronglySorted date_lt (dates l).

(** The persisted file, when there is one, is a table under the five
    column names. *)
Definition header_invariant (fs : FS) : Prop :=
  match fs CSV_FILE with
  | None => True
  | Some (Table df) => columns df = csv_columns
  | Some (Text _) => False
  end.

(** The persisted table, when there is one, is strictly ascending. *)
Definition order_invariant (fs : FS) : Prop :=
  match fs CSV_FILE with
  | Some (Table df) => strictly_ascending (rows df)
  | _ => True
  end.

(** [sys.argv[1]] and [sys.argv[2]]. *)
Definition owner_arg (e : Env) : string := nth 1 (argv e) EmptyString.
Definition repo_arg (e : Env) : string := nth 2 (argv e) EmptyString.

(** The pre-flight checks of [__main__] pass: two positional arguments
    and a non-empty token. *)
Definition preflight (e : Env) : option string :=
  if Nat.eqb (List.length (argv e)) 3 then
    match GITHUB_TOKEN e with
    | None | Some EmptyString => None
    | Some token => Some token
    end
  else None.

(** The call of [fetch_and_update_csv] that [__main__] makes. *)
Definition merge_step (e : Env) (token : string) : M DataFrame :=
  fetch_and_update_csv (network e)
    (owner_arg e) (repo_arg e) token.

(** ** Metric values that float64 carries exactly *)

(** The integers a float64 column holds as they are.  Within this range
    the upcast of a column that gets a NaN, and the way back through the
    CSV file, change no value. *)
Definition exact_metric (n : Z) : Prop := - 2 ^ 53 <= n <= 2 ^ 53.

Definition exact_cell (m : option Z) : Prop :=
  match m with
  | Some n => exact_metric n
  | None => True
  end.

Definition exact_row (r : TrafficRow) : Prop :=
  exact_cell (clones r) /\ exact_cell (clones_uniques r) /\
  exact_cell (views r) /\ exact_cell (views_uniques r).

Definition exact_record (r : RawRecord) : Prop :=
  exact_metric (count r) /\ exact_metric (uniques r).



(** ** Sample data *)

(** A day of January 2024. *)
Definition jan (d : Z) : Date := mkDate 2024 1 d.

(** A record stamped at midnight of a day of January 2024. *)
Definition midnight (d c u : Z) : RawRecord :=
  mkRaw (mkTimestamp (jan d) 0 0 0) c u.

Definition no_files : FS := fun _ => None.

(** Clones for 01-01..03 and views for 01-02..04. *)
Definition sample_clones : list RawRecord :=
  [midnight 1 10 1; midnight 2 20 2; midnight 3 30 3].
Definition sample_views : list RawRecord :=
  [midnight 2 200 12; midnight 3 300 13; midnight 4 400 14].
Definition sample_referrers : list ReferrerRecord :=
  [mkReferrer "github.com" 7 3].

Definition sample_network : Network :=
  mkNetwork (fun _ _ => Reply (Some sample_clones))
            (fun _ _ => Reply (Some sample_views))
            (fun _ _ => Reply sample_referrers).

(** A rendering that refuses an owner opening a template block. *)
Definition sample_render (owner repo : string) (df : DataFrame)
  (df_ref : list ReferrerRecord) (page_date : string) : option string :=
  if String.eqb owner "{%" then None
  else Some ("Dashboard " ++ owner ++ "/" ++ repo)%string.

Definition sample_env : Env :=
  mkEnv ["sniffTraffic.py"; "merce-fra"; "PELCA"] (Some "t0k3n")
        sample_network "2024-01-05 08:00:00" sample_render.




(** A repository without traffic: both series come back empty. *)
Definition no_traffic (referrers : list ReferrerRecord) : Network :=
  mkNetwork (fun _ _ => Reply (Some [])) (fun _ _ => Reply (Some []))
            (fun _ _ => Reply referrers).



(** Five days later the platform reports 01-04 and 01-05. *)
Definition later_network : Network :=
  mkNetwork (fun _ _ => Reply (Some [midnight 4 40 4; midnight 5 50 5]))
            (fun _ _ => Reply (Some [midnight 4 400 14; midnight 5 500 15]))
            (fun _ _ => Reply sample_referrers).

Definition later_env : Env :=
  mkEnv (argv sample_env) (GITHUB_TOKEN sample_env) later_network
        "2024-01-06 08:00:00" sample_render.

(** Two clone records of one calendar date, and views for the day after. *)
Definition twice_a_day : list RawRecord :=
  [mkRaw (mkTimestamp (jan 1) 0 0 0) 10 1;
   mkRaw (mkTimestamp (jan 1) 12 0 0) 5 1].

(** The clone series holds 01-01 twice. *)
Definition repeated_day_env : Env :=
  mkEnv (argv sample_env) (GITHUB_TOKEN sample_env)
        (mkNetwork (fun _ _ => Reply (Some twice_a_day))
                   (fun _ _ => Reply (Some [midnight 2 200 12]))
                   (fun _ _ => Reply sample_referrers))
        (now sample_env) (render sample_env).

(** An invocation without arguments and without token. *)
Definition bare_env : Env :=
  mkEnv ["sniffTraffic.py"] None sample_network (now sample_env)
        (render sample_env).


(** The row of [df_cl] or [df_vw] made from a fetched record. *)
Definition series_row (r : RawRecord) : SeriesRow :=
  mkSeries (record_date r) (count r) (uniques r).

(** ** Proof steps used more than once *)

(** An event is not in a literal trace. *)
Ltac no_such_event := simpl; intuition discriminate.


(** Literal metric values are in the exact range. *)
Ltac exact_values :=
  repeat (apply Forall_cons || apply Forall_nil);
  unfold exact_row, exact_record, exact_cell, exact_metric; simpl;
  repeat split; try exact I; lia.


(** A constant platform answers with pairwise distinct dates. *)
Ltac distinct_dates :=
  intros url token; split; simpl; unfold unique_dates; simpl;
  repeat constructor; simpl; intuition discriminate.

(** ** Reading a trace *)

(** The URLs requested, in the order of the requests. *)
Fixpoint requests (t : list event) : list string :=
  match t with
  | [] => []
  | HttpGet url :: t' => url :: requests t'
  | _ :: t' => requests t'
  end.



(** The run [e] would be with another platform. *)
Definition with_network (e : Env) (net : Network) : Env :=
  mkEnv (argv e) (GITHUB_TOKEN e) net (now e) (render e).

(** Where a pair of metrics of a row of date [d] comes from: both are
    the count and the uniques of one record of [series] for [d], or both
    are null and [series] has no record for [d]. *)
Definition metrics_from (series : list RawRecord) (d : Date)
  (m mu : option Z) : Prop :=
  match m, mu with
  | Some c, Some u =>
      exists rec, In rec series /\ record_date rec = d /\
                  count rec = c /\ uniques rec = u
  | None, None => ~ In d (map record_date series)
  | _, _ => False
  end.

(** * Properties *)

(** ** The order on dates *)

Lemma date_compare_eq (a b : Date) : date_compare a b = Eq <-> a = b.
Proof.
  destruct a as [y1 m1 d1], b as [y2 m2 d2]; unfold date_compare; simpl.
  split.
  - destruct (Z.compare_spec y1 y2); try discriminate.
    destruct (Z.compare_spec m1 m2); try discriminate.
    destruct (Z.compare_spec d1 d2); try discriminate.
    intros _; congruence.
  - intros H; injection H as -> -> ->. now rewrite !Z.compare_refl.
Qed.

Lemma date_compare_antisym (a b : Date) :
  date_compare b a = CompOpp (date_compare a b).
Proof.
  destruct a as [y1 m1 d1], b as [y2 m2 d2]; unfold date_compare; simpl.
  rewrite (Z.compare_antisym y1 y2), (Z.compare_antisym m1 m2),
    (Z.compare_antisym d1 d2).
  destruct (y1 ?= y2); simpl; auto.
  destruct (m1 ?= m2); simpl; auto.
Qed.

Lemma date_lt_trans (a b c : Date) :
  date_lt a b -> date_lt b c -> date_lt a c.
Proof.
  destruct a as [y1 m1 d1], b as [y2 m2 d2], c as [y3 m3 d3].
  unfold date_lt, date_compare; simpl.
  destruct (Z.compare_spec y1 y2); try discriminate;
    destruct (Z.compare_spec y2 y3); try discriminate;
    destruct (Z.compare_spec y1 y3); try lia; auto;
    destruct (Z.compare_spec m1 m2); try discriminate;
    destruct (Z.compare_spec m2 m3); try discriminate;
    destruct (Z.compare_spec m1 m3); try lia; auto;
    rewrite !Z.compare_lt_iff; lia.
Qed.

Lemma date_eqb_eq (a b : Date) : date_eqb a b = true <-> a = b.
Proof.
  unfold date_eqb. rewrite <- date_compare_eq.
  destruct (date_compare a b); split; congruence.
Qed.

Lemma date_eqb_refl (a : Date) : date_eqb a a = true.
Proof. now apply date_eqb_eq. Qed.

Lemma date_le_trans (a b c : Date) :
  date_le a b -> date_le b c -> date_le a c.
Proof.
  unfold date_le, date_leb.
  destruct (date_compare a b) eqn:Hab; try discriminate;
    destruct (date_compare b c) eqn:Hbc; try discriminate; intros _ _.
  - apply date_compare_eq in Hab, Hbc. subst.
    now rewrite (proj2 (date_compare_eq c c) eq_refl).
  - apply date_compare_eq in Hab. subst. now rewrite Hbc.
  - apply date_compare_eq in Hbc. subst. now rewrite Hab.
  - now rewrite (date_lt_trans a b c Hab Hbc).
Qed.

Lemma date_leb_false_le (a b : Date) : date_leb a b = false -> date_le b a.
Proof.
  unfold date_le, date_leb. rewrite (date_compare_antisym a b).
  now destruct (date_compare a b).
Qed.

Lemma date_le_neq_lt (a b : Date) : date_le a b -> a <> b -> date_lt a b.
Proof.
  unfold date_le, date_leb, date_lt. intros H Hn.
  destruct (date_compare a b) eqn:E; try discriminate; auto.
  now apply date_compare_eq in E.
Qed.

Lemma isin_In (d : Date) (col : list Date) : isin d col = true <-> In d col.
Proof.
  unfold isin. rewrite existsb_exists. split.
  - intros [x [Hx E]]. apply date_eqb_eq in E. now subst.
  - intros H. exists d. split; auto. apply date_eqb_refl.
Qed.

Lemma isin_not_In (d : Date) (col : list Date) :
  isin d col = false <-> ~ In d col.
Proof.
  rewrite <- isin_In. destruct (isin d col); split; congruence.
Qed.

(** ** Sorting by date *)

Lemma insert_by_date_perm (r : TrafficRow) (l : list TrafficRow) :
  Permutation (insert_by_date r l) (r :: l).
Proof.
  induction l as [|x l IH]; simpl; auto.
  destruct (date_leb (date r) (date x)); auto.
  rewrite IH. apply perm_swap.
Qed.

Lemma sort_rows_perm (l : list TrafficRow) : Permutation (sort_rows l) l.
Proof.
  induction l as [|r l IH]; simpl; auto.
  rewrite insert_by_date_perm. now constructor.
Qed.

Lemma sort_rows_In (l : list TrafficRow) (r : TrafficRow) :
  In r (sort_rows l) <-> In r l.
Proof.
  split; apply Permutation_in;
    [apply sort_rows_perm | apply Permutation_sym, sort_rows_perm].
Qed.

Lemma insert_by_date_sorted (r : TrafficRow) (l : list TrafficRow) :
  StronglySorted date_le (dates l) ->
  StronglySorted date_le (dates (insert_by_date r l)).
Proof.
  induction l as [|x l IH]; simpl; intros H.
  - repeat constructor.
  - inversion H as [|? ? Hs Hall]; subst.
    destruct (date_leb (date r) (date x)) eqn:E; simpl.
    + constructor; [exact H|].
      constructor; [exact E|].
      eapply Forall_impl; [|exact Hall].
      intros d Hd. eapply date_le_trans; eauto.
    + constructor; [now apply IH|].
      assert (Hp : Permutation (dates (insert_by_date r l)) (date r :: dates l)).
      { unfold dates. rewrite (insert_by_date_perm r l). reflexivity. }
      eapply Permutation_Forall; [apply Permutation_sym, Hp|].
      constructor; [now apply date_leb_false_le | exact Hall].
Qed.

Lemma sort_rows_sorted (l : list TrafficRow) :
  StronglySorted date_le (dates (sort_rows l)).
Proof.
  induction l as [|r l IH]; simpl.
  - constructor.
  - now apply insert_by_date_sorted.
Qed.

Lemma sorted_le_nodup_lt (ds : list Date) :
  StronglySorted date_le ds -> NoDup ds -> StronglySorted date_lt ds.
Proof.
  induction 1 as [|d ds Hs IH Hall]; intros Hn; constructor.
  - apply IH. now inversion Hn.
  - inversion Hn as [|? ? Hnotin _]; subst.
    rewrite Forall_forall in *. intros x Hx.
    apply date_le_neq_lt; auto. intros ->. contradiction.
Qed.

Lemma date_lt_irrefl (a : Date) : ~ date_lt a a.
Proof.
  unfold date_lt. now rewrite (proj2 (date_compare_eq a a) eq_refl).
Qed.

Lemma sorted_lt_nodup (ds : list Date) :
  StronglySorted date_lt ds -> NoDup ds.
Proof.
  induction 1 as [|d ds Hs IH Hall]; constructor; auto.
  intros Hin. rewrite Forall_forall in Hall.
  exact (date_lt_irrefl d (Hall d Hin)).
Qed.

(** Sorting rows of pairwise distinct dates puts them in strictly
    ascending order. *)
Lemma sort_rows_strict (l : list TrafficRow) :
  NoDup (dates l) -> StronglySorted date_lt (dates (sort_rows l)).
Proof.
  intros Hn. apply sorted_le_nodup_lt; [apply sort_rows_sorted|].
  eapply Permutation_NoDup; [|exact Hn].
  unfold dates. apply Permutation_map, Permutation_sym, sort_rows_perm.
Qed.

(** ** The outer join *)

Lemma with_date_dates (l : list RawRecord) (s : list SeriesRow) :
  with_date l = Ok s -> series_dates s = map record_date l.
Proof.
  destruct l as [|r l]; [discriminate|].
  intros H; injection H as <-. unfold series_dates; simpl.
  f_equal. now rewrite map_map.
Qed.

Lemma with_date_Ok (l : list RawRecord) :
  l <> [] ->
  with_date l =
    Ok (map (fun r => mkSeries (record_date r) (count r) (uniques r)) l).
Proof. destruct l; [congruence | reflexivity]. Qed.

Lemma join_left_dates (right : list SeriesRow) (l : SeriesRow) :
  Forall (fun r => date r = s_date l) (join_left right l).
Proof.
  unfold join_left. destruct (matching (s_date l) right) as [|m ms].
  - now repeat constructor.
  - apply Forall_forall. intros r Hr. apply in_map_iff in Hr.
    now destruct Hr as [x [<- _]].
Qed.

Lemma join_left_nonempty (right : list SeriesRow) (l : SeriesRow) :
  exists r, In r (join_left right l).
Proof.
  unfold join_left. destruct (matching (s_date l) right) as [|m ms];
    eexists; simpl; left; reflexivity.
Qed.

Lemma right_only_dates (left right : list SeriesRow) :
  dates (right_only left right) =
    filter (fun d => negb (isin d (series_dates left))) (series_dates right).
Proof.
  unfold right_only, dates, series_dates. rewrite map_map. simpl.
  induction right as [|r right IH]; simpl; auto.
  destruct (negb (isin (s_date r) (map s_date left))); simpl; now rewrite IH.
Qed.

Lemma merge_outer_dates (left right : list SeriesRow) (d : Date) :
  In d (dates (rows (merge_outer left right))) <->
  In d (series_dates left) \/ In d (series_dates right).
Proof.
  unfold merge_outer; simpl. unfold dates at 1. rewrite map_app, in_app_iff.
  fold (dates (right_only left right)). rewrite right_only_dates.
  rewrite filter_In, negb_true_iff, isin_not_In.
  split.
  - intros [H | [H _]]; auto. left.
    apply in_map_iff in H. destruct H as [r [<- Hr]].
    apply in_flat_map in Hr. destruct Hr as [l [Hl Hr]].
    pose proof (join_left_dates right l) as Hall.
    rewrite Forall_forall in Hall. rewrite (Hall r Hr).
    unfold series_dates. now apply in_map.
  - assert (Hl : In d (series_dates left) ->
                 In d (map date (flat_map (join_left right) left))).
    { intros H. unfold series_dates in H. apply in_map_iff in H.
      destruct H as [l [<- Hl]].
      destruct (join_left_nonempty right l) as [r Hr].
      pose proof (join_left_dates right l) as Hall.
      rewrite Forall_forall in Hall. rewrite <- (Hall r Hr).
      apply in_map, in_flat_map. eauto. }
    intros [H | H]; auto.
    destruct (isin d (series_dates left)) eqn:E.
    + apply isin_In in E. auto.
    + apply isin_not_In in E. auto.
Qed.

Lemma matching_nil (d : Date) (l : list SeriesRow) :
  ~ In d (series_dates l) -> matching d l = [].
Proof.
  unfold matching. induction l as [|r l IH]; simpl; intros H; auto.
  destruct (date_eqb (s_date r) d) eqn:E.
  - apply date_eqb_eq in E. tauto.
  - apply IH. tauto.
Qed.

Lemma matching_nodup (d : Date) (l : list SeriesRow) :
  NoDup (series_dates l) ->
  matching d l = [] \/ exists r, matching d l = [r].
Proof.
  unfold matching. induction l as [|r l IH]; simpl; intros H; auto.
  inversion H as [|? ? Hnotin Hn]; subst.
  destruct (date_eqb (s_date r) d) eqn:E.
  - apply date_eqb_eq in E. subst d. right. exists r.
    pose proof (matching_nil _ _ Hnotin) as Hm. unfold matching in Hm.
    now rewrite Hm.
  - now apply IH.
Qed.

Lemma join_left_nodup (right : list SeriesRow) (l : SeriesRow) :
  NoDup (series_dates right) -> dates (join_left right l) = [s_date l].
Proof.
  intros H. unfold join_left.
  destruct (matching_nodup (s_date l) right H) as [-> | [r ->]]; reflexivity.
Qed.

Lemma flat_map_join_dates (left right : list SeriesRow) :
  NoDup (series_dates right) ->
  dates (flat_map (join_left right) left) = series_dates left.
Proof.
  intros H. induction left as [|l left IH]; simpl; auto.
  unfold dates in *. rewrite map_app, IH.
  fold (dates (join_left right l)). now rewrite join_left_nodup.
Qed.

(** Keeping some of pairwise distinct dates keeps them distinct. *)
Lemma kept_dates_distinct (keep : Date -> bool) (ds : list Date) :
  NoDup ds -> NoDup (filter keep ds).
Proof.
  intros Hn. induction Hn as [|d ds Hd Hn IH]; cbn [filter].
  - constructor.
  - destruct (keep d); [|exact IH].
    constructor; [|exact IH].
    intros Hin. apply filter_In in Hin. now apply Hd.
Qed.

(** Two lists of distinct dates without a common date, one after the
    other. *)
Lemma dates_distinct_app (ds1 ds2 : list Date) :
  (forall d, In d ds1 -> In d ds2 -> False) ->
  NoDup ds1 -> NoDup ds2 -> NoDup (ds1 ++ ds2).
Proof.
  intros Hdisj Hn1 Hn2. induction Hn1 as [|d ds Hd Hn IH]; [exact Hn2|].
  cbn [app]. constructor.
  - intros Hin. apply in_app_iff in Hin. destruct Hin as [Hin | Hin].
    + now apply Hd.
    + apply (Hdisj d); [now left | exact Hin].
  - apply IH. intros d' H1 H2. apply (Hdisj d'); [now right | exact H2].
Qed.

(** Two series with one record per date merge into a table with one row
    per date. *)
Lemma merge_outer_nodup (left right : list SeriesRow) :
  NoDup (series_dates left) -> NoDup (series_dates right) ->
  NoDup (dates (rows (merge_outer left right))).
Proof.
  intros Hl Hr. unfold merge_outer; simpl.
  unfold dates. rewrite map_app.
  fold (dates (flat_map (join_left right) left)).
  fold (dates (right_only left right)).
  rewrite flat_map_join_dates, right_only_dates by assumption.
  apply dates_distinct_app; auto.
  - intros d Hd Hf. apply filter_In in Hf. destruct Hf as [_ Hf].
    apply negb_true_iff, isin_not_In in Hf. contradiction.
  - now apply kept_dates_distinct.
Qed.

(** ** The two functions, case by case *)

Lemma fetch_and_update_csv_cases net owner repo token fs :
  fetch_and_update_csv net owner repo token fs =
  let g1 := HttpGet (clones_url owner repo) in
  let g2 := HttpGet (views_url owner repo) in
  match traffic_clones net (clones_url owner repo) token with
  | Failure c => (Err (HTTPError c), fs, [g1])
  | Unreachable => (Err ConnectionError, fs, [g1])
  | Reply clones =>
    match traffic_views net (views_url owner repo) token with
    | Failure c => (Err (HTTPError c), fs, [g1; g2])
    | Unreachable => (Err ConnectionError, fs, [g1; g2])
    | Reply views =>
      match new_data (get_or_empty clones) (get_or_empty views) with
      | Err e => (Err e, fs, [g1; g2])
      | Ok df_new =>
        match fs CSV_FILE with
        | None =>
            (Ok df_new, write CSV_FILE (Table df_new) fs,
             [g1; g2; PathExists CSV_FILE; FileWrite CSV_FILE;
              Print (MsgCreated (List.length (rows df_new)))])
        | Some (Text _) =>
            (Err ParserError, fs,
             [g1; g2; PathExists CSV_FILE; FileRead CSV_FILE])
        | Some (Table df_exist) =>
            let df_append := new_rows df_exist df_new in
            if no_rows df_exist then
              (Err AttributeError, fs,
               [g1; g2; PathExists CSV_FILE; FileRead CSV_FILE])
            else if empty df_append then
              (Ok df_exist, fs,
               [g1; g2; PathExists CSV_FILE; FileRead CSV_FILE;
                Print MsgNoNew])
            else
              let df_updated := sort_values (concat df_exist df_append) in
              (Ok df_updated, write CSV_FILE (Table df_updated) fs,
               [g1; g2; PathExists CSV_FILE; FileRead CSV_FILE;
                FileWrite CSV_FILE;
                Print (MsgAdded (List.length (rows df_append)))])
        end
      end
    end
  end.
Proof.
  unfold fetch_and_update_csv, bind, request_json, lift, path_exists,
    read_csv, to_csv, print, ret, clones_url, views_url, new_rows.
  cbv beta iota zeta.
  destruct (traffic_clones net _ token); cbv beta iota zeta;
    try reflexivity.
  destruct (traffic_views net _ token); cbv beta iota zeta;
    try reflexivity.
  destruct (new_data _ _); cbv beta iota zeta; try reflexivity.
  destruct (fs CSV_FILE) as [[df_exist | txt] |] eqn:E; cbv beta iota zeta;
    rewrite ?E; cbv beta iota zeta; try reflexivity.
  destruct (no_rows df_exist); cbv beta iota zeta; try reflexivity.
  destruct (empty _); reflexivity.
Qed.

Lemma main_cases e fs :
  main e fs =
  if negb (Nat.eqb (List.length (argv e)) 3) then
    (Err (SystemExit 1), fs, [Print MsgUsage])
  else
    let owner := owner_arg e in
    let repo := repo_arg e in
    match GITHUB_TOKEN e with
    | None | Some EmptyString => (Err (SystemExit 1), fs, [Print MsgToken])
    | Some token =>
        match fetch_and_update_csv (network e) owner repo token fs with
        | (Err x, fs1, t1) => (Err x, fs1, t1)
        | (Ok df, fs1, t1) =>
            let g3 := HttpGet (referrers_url owner repo) in
            match popular_referrers (network e)
                    (referrers_url owner repo) token with
            | Failure c => (Err (HTTPError c), fs1, t1 ++ [g3])
            | Unreachable => (Err ConnectionError, fs1, t1 ++ [g3])
            | Reply df_ref =>
                match render e owner repo df df_ref (now e) with
                | None => (Err TemplateError, fs1, t1 ++ [g3])
                | Some html =>
                    (Ok tt, write "main.html" (Text html) fs1,
                     t1 ++ [g3; FileWrite "main.html";
                            Print (MsgDashboard "main.html")])
                end
            end
        end
    end.
Proof.
  unfold main. destruct (negb _); [reflexivity|].
  destruct (GITHUB_TOKEN e) as [[|c token]|]; try reflexivity.
  unfold bind at 1.
  destruct (fetch_and_update_csv _ _ _ _ fs) as [[[df | x] fs1] t1];
    [|reflexivity].
  unfold bind, fetch_referrers, request_json, build_dashboard, write_text,
    print, ret, raise, referrers_url.
  cbv beta iota zeta.
  destruct (popular_referrers _ _ _); cbv beta iota zeta; try reflexivity.
  destruct (render e _ _ _ _ _); reflexivity.
Qed.

(** ** The new-data table *)

Lemma new_data_inv clones views df :
  new_data clones views = Ok df ->
  exists df_cl df_vw,
    with_date clones = Ok df_cl /\ with_date views = Ok df_vw /\
    columns df = csv_columns /\
    rows df = sort_rows (rows (merge_outer df_cl df_vw)).
Proof.
  unfold new_data.
  destruct (with_date clones) as [df_cl|]; [|discriminate].
  destruct (with_date views) as [df_vw|]; [|discriminate].
  intros H; injection H as <-. exists df_cl, df_vw. auto.
Qed.

Lemma new_data_columns clones views df :
  new_data clones views = Ok df -> columns df = csv_columns.
Proof.
  intros H. apply new_data_inv in H.
  now destruct H as (? & ? & _ & _ & H & _).
Qed.

Lemma new_data_nodup clones views df :
  unique_dates clones -> unique_dates views ->
  new_data clones views = Ok df -> NoDup (dates (rows df)).
Proof.
  intros Hc Hv H. apply new_data_inv in H.
  destruct H as (df_cl & df_vw & Hcl & Hvw & _ & ->).
  apply with_date_dates in Hcl, Hvw.
  eapply Permutation_NoDup.
  - unfold dates. apply Permutation_map, Permutation_sym, sort_rows_perm.
  - apply merge_outer_nodup; [rewrite Hcl | rewrite Hvw]; assumption.
Qed.

Lemma new_data_strict clones views df :
  unique_dates clones -> unique_dates views ->
  new_data clones views = Ok df -> strictly_ascending (rows df).
Proof.
  intros Hc Hv H. pose proof (new_data_nodup _ _ _ Hc Hv H) as Hn.
  apply new_data_inv in H.
  destruct H as (df_cl & df_vw & _ & _ & _ & E).
  rewrite E in *. unfold strictly_ascending.
  apply sorted_le_nodup_lt; [apply sort_rows_sorted | exact Hn].
Qed.

Lemma merge_outer_has_rows left right :
  left <> [] -> rows (merge_outer left right) <> [].
Proof.
  destruct left as [|l left]; [congruence|]. intros _.
  cbn [rows merge_outer flat_map].
  destruct (join_left_nonempty right l) as [r Hr].
  destruct (join_left right l) as [|x xs]; [contradiction | discriminate].
Qed.

Lemma new_data_has_rows cl vw df :
  new_data cl vw = Ok df -> rows df <> [].
Proof.
  intros H. apply new_data_inv in H.
  destruct H as (df_cl & df_vw & Hcl & _ & _ & ->).
  assert (Hne : df_cl <> [])
    by (destruct cl; [discriminate | injection Hcl as <-; discriminate]).
  intros Hnil.
  pose proof (sort_rows_perm (rows (merge_outer df_cl df_vw))) as Hp.
  rewrite Hnil in Hp. apply Permutation_nil in Hp.
  exact (merge_outer_has_rows df_cl df_vw Hne Hp).
Qed.




(** ** The file system *)

Lemma write_same p f fs : write p f fs p = Some f.
Proof. unfold write. now rewrite String.eqb_refl. Qed.


(** ** Appending *)


(** Selecting rows of a table with distinct dates keeps them distinct. *)
Lemma selected_dates_distinct (keep : TrafficRow -> bool)
      (l : list TrafficRow) :
  NoDup (dates l) -> NoDup (dates (filter keep l)).
Proof.
  unfold dates. induction l as [|r l IH]; cbn [filter map]; intros Hn.
  - constructor.
  - inversion Hn as [|? ? Hr Hrest]; subst.
    destruct (keep r); cbn [map]; [|now apply IH].
    constructor; [|now apply IH].
    intros Hin. apply Hr. apply in_map_iff in Hin.
    destruct Hin as [x [Ex Hx]]. apply filter_In in Hx.
    rewrite <- Ex. now apply in_map.
Qed.

(** The rows of distinct new dates put after a strictly ascending table
    and sorted give a strictly ascending table. *)
Lemma append_strict df_exist df_new :
  strictly_ascending (rows df_exist) ->
  NoDup (dates (rows df_new)) ->
  strictly_ascending
    (rows (sort_values (concat df_exist (new_rows df_exist df_new)))).
Proof.
  intros He Hn. unfold strictly_ascending; simpl.
  apply sort_rows_strict. unfold dates. rewrite map_app.
  apply dates_distinct_app.
  - intros d Hd Hin. apply in_map_iff in Hin.
    destruct Hin as [r [<- Hr]]. apply filter_In in Hr.
    destruct Hr as [_ Hr]. apply negb_true_iff, isin_not_In in Hr.
    contradiction.
  - now apply sorted_lt_nodup.
  - now apply (selected_dates_distinct _ (rows df_new)).
Qed.

Lemma concat_columns df_exist df_new :
  columns df_exist = csv_columns -> columns df_new = csv_columns ->
  columns (sort_values (concat df_exist (new_rows df_exist df_new)))
    = csv_columns.
Proof. simpl. intros -> ->. reflexivity. Qed.


(** ** Running twice on the same fetched data *)


(** Every date of the new-data table is persisted once the step is over. *)
Lemma appended_covers df_exist df_new r :
  In r (rows df_new) ->
  In (date r)
     (dates (rows (sort_values (concat df_exist (new_rows df_exist df_new))))).
Proof.
  intros Hr. unfold sort_values, concat, new_rows, select_rows. cbn [rows].
  apply in_map_iff.
  destruct (isin (date r) (dates (rows df_exist))) eqn:E.
  - apply isin_In in E. apply in_map_iff in E.
    destruct E as [x [Ex Hx]]. exists x. split; auto.
    apply sort_rows_In, in_app_iff. now left.
  - exists r. split; auto. apply sort_rows_In, in_app_iff. right.
    apply filter_In. split; auto. cbv beta. now rewrite E.
Qed.


(** ** Literal outcomes *)

Lemma outcome_of {A} (r : result A) (fs : FS) (t : list event) :
  outcome (r, fs, t) = r.
Proof. reflexivity. Qed.

Lemma files_of {A} (r : result A) (fs : FS) (t : list event) :
  files (r, fs, t) = fs.
Proof. reflexivity. Qed.

Lemma effects_of {A} (r : result A) (fs : FS) (t : list event) :
  effects (r, fs, t) = t.
Proof. reflexivity. Qed.

(** ** [__main__] around the merge step *)

Lemma main_rejected e fs :
  preflight e = None ->
  main e fs = (Err (SystemExit 1), fs, [Print MsgUsage]) \/
  main e fs = (Err (SystemExit 1), fs, [Print MsgToken]).
Proof.
  unfold preflight. rewrite main_cases.
  destruct (Nat.eqb _ 3); simpl; auto.
  destruct (GITHUB_TOKEN e) as [[|c t]|]; auto. discriminate.
Qed.

Lemma main_accepted e fs token :
  preflight e = Some token ->
  let owner := owner_arg e in
  let repo := repo_arg e in
  let step := merge_step e token fs in
  main e fs =
    match outcome step with
    | Err x => (Err x, files step, effects step)
    | Ok df =>
        let g3 := HttpGet (referrers_url owner repo) in
        match popular_referrers (network e)
                (referrers_url owner repo) token with
        | Failure c => (Err (HTTPError c), files step, effects step ++ [g3])
        | Unreachable => (Err ConnectionError, files step, effects step ++ [g3])
        | Reply df_ref =>
            match render e owner repo df df_ref (now e) with
            | None => (Err TemplateError, files step, effects step ++ [g3])
            | Some html =>
                (Ok tt, write "main.html" (Text html) (files step),
                 effects step ++ [g3; FileWrite "main.html";
                                  Print (MsgDashboard "main.html")])
            end
        end
    end.
Proof.
  unfold preflight, merge_step. rewrite main_cases.
  destruct (Nat.eqb _ 3); simpl; [|discriminate].
  destruct (GITHUB_TOKEN e) as [[|c t]|]; try discriminate.
  intros H; injection H as <-.
  unfold outcome, files, effects.
  now destruct (fetch_and_update_csv _ _ _ _ fs) as [[[df | x] fs1] t1].
Qed.

(** Around the merge step, [__main__] touches no file but [main.html]. *)
Lemma main_csv_entry e fs token :
  preflight e = Some token ->
  files (main e fs) CSV_FILE = files (merge_step e token fs) CSV_FILE.
Proof.
  intros H. rewrite (main_accepted e fs token H). cbv zeta.
  destruct (outcome _); [|reflexivity].
  destruct (popular_referrers _ _ _); try reflexivity.
  destruct (render e _ _ _ _ _); reflexivity.
Qed.





(** ** Empty series *)

(** C2: when both series come back empty the claim expects a silent
    no-op that reports "no new data".  The script instead stops with
    [KeyError: 'timestamp'] right after the two requests: it neither
    looks at the persisted file nor prints anything. *)
Theorem empty_series_raise_key_error :
  forall referrers owner repo token fs,
    fetch_and_update_csv (no_traffic referrers) owner repo token fs =
      (Err (KeyError "timestamp"), fs,
       [HttpGet (clones_url owner repo); HttpGet (views_url owner repo)]).
Proof.
  intros. now rewrite fetch_and_update_csv_cases.
Qed.

(** One empty series is enough. *)
Lemma empty_side_raises (records : list RawRecord) :
  new_data [] records = Err (KeyError "timestamp") /\
  new_data records [] = Err (KeyError "timestamp").
Proof.
  split; [reflexivity|]. now destruct records.
Qed.

(** ** Pre-flight checks *)

(** C8, as stated, does not hold for every invocation with the token
    unset: without arguments and without token the script prints the
    usage line and never reports the missing token. *)
Lemma wrong_count_hides_missing_token :
  GITHUB_TOKEN bare_env = None /\
  main bare_env no_files = (Err (SystemExit 1), no_files, [Print MsgUsage]) /\
  ~ In (Print MsgToken) (effects (main bare_env no_files)).
Proof.
  repeat split. simpl. intuition discriminate.
Qed.

(** C8, amended: with an argument count other than two the script prints
    the usage line and exits with status 1.  With the token unset (or
    empty) it exits with a non-zero status after printing the usage line
    or the token line, the token line when the argument count is right.
    In both cases it has made no request and touched no file. *)
Theorem preflight_failures_have_no_side_effects :
  forall e fs,
    (List.length (argv e) <> 3%nat ->
     main e fs = (Err (SystemExit 1), fs, [Print MsgUsage])) /\
    (GITHUB_TOKEN e = None \/ GITHUB_TOKEN e = Some EmptyString ->
     (List.length (argv e) = 3%nat ->
      main e fs = (Err (SystemExit 1), fs, [Print MsgToken])) /\
     exit_status (outcome (main e fs)) <> 0 /\
     files (main e fs) = fs /\
     (forall ev, In ev (effects (main e fs)) ->
                 ev = Print MsgUsage \/ ev = Print MsgToken)).
Proof.
  intros e fs. rewrite main_cases. split.
  - intros H. apply Nat.eqb_neq in H. now rewrite H.
  - intros H.
    assert (E : match GITHUB_TOKEN e with
                | None | Some EmptyString => True
                | Some _ => False
                end) by (destruct H as [-> | ->]; exact I).
    clear H. split.
    + intros Hlen. rewrite Hlen. simpl.
      now destruct (GITHUB_TOKEN e) as [[|c t]|].
    + destruct (Nat.eqb _ 3); simpl;
        [destruct (GITHUB_TOKEN e) as [[|c t]|]; [|contradiction|]|];
        repeat split; try discriminate; intros ev [<- | []]; auto.
Qed.

Lemma preflight_failures_have_no_side_effects_witness :
  main (mkEnv ["sniffTraffic.py"; "merce-fra"] (Some "t0k3n") sample_network
              "2024-01-05 08:00:00" sample_render) no_files
    = (Err (SystemExit 1), no_files, [Print MsgUsage]) /\
  main (mkEnv ["sniffTraffic.py"; "merce-fra"; "PELCA"] None sample_network
              "2024-01-05 08:00:00" sample_render) no_files
    = (Err (SystemExit 1), no_files, [Print MsgToken]).
Proof.
  split.
  - apply (proj1 (preflight_failures_have_no_side_effects
                    (mkEnv ["sniffTraffic.py"; "merce-fra"] (Some "t0k3n")
                           sample_network "2024-01-05 08:00:00"
                           sample_render) no_files)).
    simpl. lia.
  - apply (proj2 (preflight_failures_have_no_side_effects
                    (mkEnv ["sniffTraffic.py"; "merce-fra"; "PELCA"] None
                           sample_network "2024-01-05 08:00:00"
                           sample_render) no_files));
      [left|]; reflexivity.
Defined.

(** ** What the merge step touches *)

Lemma fetch_writes_only_csv net owner repo token fs p :
  In (FileWrite p) (effects (fetch_and_update_csv net owner repo token fs)) ->
  p = CSV_FILE.
Proof.
  rewrite fetch_and_update_csv_cases. cbv zeta.
  destruct (traffic_clones net _ token); try no_such_event.
  destruct (traffic_views net _ token); try no_such_event.
  destruct (new_data _ _); try no_such_event.
  destruct (fs CSV_FILE) as [[df_exist | txt] |]; try no_such_event;
    try (simpl; intuition congruence).
  destruct (no_rows df_exist); [no_such_event|].
  destruct (empty _); simpl; intuition congruence.
Qed.



Lemma fetch_returned_table net owner repo token fs df :
  outcome (fetch_and_update_csv net owner repo token fs) = Ok df ->
  files (fetch_and_update_csv net owner repo token fs) CSV_FILE
    = Some (Table df).
Proof.
  rewrite fetch_and_update_csv_cases. cbv zeta.
  destruct (traffic_clones net _ token); try discriminate.
  destruct (traffic_views net _ token); try discriminate.
  destruct (new_data _ _); try discriminate.
  destruct (fs CSV_FILE) as [[df_exist | txt] |] eqn:Hfs; try discriminate.
  - destruct (no_rows df_exist); [discriminate|].
    destruct (empty _); unfold outcome, files; cbn [fst snd];
      intros H; injection H as <-; [exact Hfs | apply write_same].
  - unfold outcome, files; cbn [fst snd].
    intros H; injection H as <-. apply write_same.
Qed.

Lemma fetch_failed_request net owner repo token fs :
  failed (traffic_clones net (clones_url owner repo) token) \/
  failed (traffic_views net (views_url owner repo) token) ->
  exists x, outcome (fetch_and_update_csv net owner repo token fs) = Err x.
Proof.
  rewrite fetch_and_update_csv_cases. cbv zeta.
  destruct (traffic_clones net _ token);
    [|intros _; eexists; reflexivity ..].
  destruct (traffic_views net _ token);
    [|intros _; eexists; reflexivity ..].
  simpl. tauto.
Qed.

(** ** The report *)

Lemma completed_run e fs :
  outcome (main e fs) = Ok tt ->
  exists token df df_ref html,
    preflight e = Some token /\
    outcome (merge_step e token fs) = Ok df /\
    popular_referrers (network e)
      (referrers_url (owner_arg e) (repo_arg e)) token = Reply df_ref /\
    render e (owner_arg e) (repo_arg e) df df_ref (now e) = Some html /\
    main e fs =
      (Ok tt,
       write "main.html" (Text html) (files (merge_step e token fs)),
       effects (merge_step e token fs) ++
         [HttpGet (referrers_url (owner_arg e) (repo_arg e));
          FileWrite "main.html"; Print (MsgDashboard "main.html")]).
Proof.
  destruct (preflight e) as [token|] eqn:Hpre.
  - rewrite (main_accepted e fs token Hpre). cbv zeta.
    destruct (outcome (merge_step e token fs)) as [df|] eqn:Hstep;
      [|discriminate].
    destruct (popular_referrers _ _ _) as [df_ref| |] eqn:Href;
      try discriminate.
    destruct (render e _ _ _ _ _) as [html|] eqn:Hrender; [|discriminate].
    intros _. now exists token, df, df_ref, html.
  - destruct (main_rejected e fs Hpre) as [-> | ->]; discriminate.
Qed.

Lemma completed_run_dataset e fs :
  outcome (main e fs) = Ok tt ->
  exists df, files (main e fs) CSV_FILE = Some (Table df).
Proof.
  intros H.
  destruct (completed_run e fs H)
    as (token & df & df_ref & html & Hpre & Hstep & _).
  exists df. rewrite (main_csv_entry e fs token Hpre).
  now apply fetch_returned_table.
Qed.

(** C10: whatever the owner and the repository, a run that completes
    writes its report to the file [main.html]: that file then holds the
    page rendered for this run's owner and repository, replacing what it
    held before, and the run wrote to no path other than
    [traffic_data.csv] and [main.html].  Hence of two completed runs in a
    row, for any two repositories, only the second report remains. *)
Theorem report_written_to_main_html :
  forall e fs,
    outcome (main e fs) = Ok tt ->
    (exists df df_ref html,
        render e (owner_arg e) (repo_arg e) df df_ref (now e) = Some html /\
        files (main e fs) "main.html" = Some (Text html)) /\
    In (FileWrite "main.html") (effects (main e fs)) /\
    In (Print (MsgDashboard "main.html")) (effects (main e fs)) /\
    (forall p, In (FileWrite p) (effects (main e fs)) ->
               p = CSV_FILE \/ p = "main.html").
Proof.
  intros e fs H.
  destruct (completed_run e fs H)
    as (token & df & df_ref & html & Hpre & Hstep & _ & Hrender & E).
  rewrite E. unfold files, effects; cbn [fst snd]. repeat split.
  - exists df, df_ref, html. split; [exact Hrender | apply write_same].
  - apply in_app_iff. right. simpl. tauto.
  - apply in_app_iff. right. simpl. tauto.
  - intros p Hp. apply in_app_iff in Hp. destruct Hp as [Hp | Hp].
    + left. unfold merge_step in Hp.
      now apply fetch_writes_only_csv in Hp.
    + right. simpl in Hp. intuition (try discriminate; congruence).
Qed.

Lemma report_written_to_main_html_witness :
  outcome (main sample_env no_files) = Ok tt /\
  In (FileWrite "main.html") (effects (main sample_env no_files)).
Proof.
  split; [reflexivity|].
  apply (report_written_to_main_html sample_env no_files). reflexivity.
Defined.

(** ** Failed runs *)




(** ** Rows that are already persisted *)

Lemma rows_on_insert d r l :
  rows_on d (insert_by_date r l) = rows_on d (r :: l).
Proof.
  induction l as [|x l IH]; [reflexivity|].
  cbn [insert_by_date].
  destruct (date_leb (date r) (date x)) eqn:E; [reflexivity|].
  unfold rows_on in *. cbn [filter]. rewrite IH. cbn [filter].
  destruct (date_eqb (date r) d) eqn:Er; [|reflexivity].
  destruct (date_eqb (date x) d) eqn:Ex; [|reflexivity].
  apply date_eqb_eq in Er, Ex. rewrite <- Ex in Er.
  unfold date_leb in E. rewrite (proj2 (date_compare_eq _ _) Er) in E.
  discriminate.
Qed.

(** Sorting keeps the rows of one date, in their order. *)
Lemma rows_on_sort d l : rows_on d (sort_rows l) = rows_on d l.
Proof.
  induction l as [|r l IH]; [reflexivity|].
  cbn [sort_rows]. rewrite rows_on_insert.
  unfold rows_on in *. cbn [filter]. now rewrite IH.
Qed.

Lemma rows_on_app d l1 l2 :
  rows_on d (l1 ++ l2) = rows_on d l1 ++ rows_on d l2.
Proof. unfold rows_on. apply filter_app. Qed.
















(** ** Invariants of the persisted dataset *)

Lemma reply_unique_get body :
  reply_unique (Reply body) -> unique_dates (get_or_empty body).
Proof.
  destruct body as [l|]; simpl; auto. intros _. constructor.
Qed.

Lemma fetch_header_invariant net owner repo token fs :
  header_invariant fs ->
  header_invariant (files (fetch_and_update_csv net owner repo token fs)).
Proof.
  intros Hinv. rewrite fetch_and_update_csv_cases. cbv zeta.
  destruct (traffic_clones net _ token); auto.
  destruct (traffic_views net _ token); auto.
  destruct (new_data _ _) as [df_new|] eqn:Hnew; auto.
  apply new_data_columns in Hnew.
  unfold header_invariant in *.
  destruct (fs CSV_FILE) as [[df_exist | txt] |] eqn:Hfs.
  - destruct (no_rows df_exist); [now rewrite files_of, Hfs|].
    destruct (empty _); unfold files; cbn [fst snd].
    + now rewrite Hfs.
    + rewrite write_same. now apply concat_columns.
  - contradiction.
  - unfold files; cbn [fst snd]. now rewrite write_same.
Qed.

Lemma fetch_order_invariant net owner repo token fs :
  one_record_per_date net ->
  order_invariant fs ->
  order_invariant (files (fetch_and_update_csv net owner repo token fs)).
Proof.
  intros Hnet Hinv. rewrite fetch_and_update_csv_cases. cbv zeta.
  destruct (Hnet (clones_url owner repo) token) as [Hc _].
  destruct (Hnet (views_url owner repo) token) as [_ Hv].
  destruct (traffic_clones net _ token) as [clones| |]; auto.
  destruct (traffic_views net _ token) as [views| |]; auto.
  apply reply_unique_get in Hc, Hv.
  destruct (new_data _ _) as [df_new|] eqn:Hnew; auto.
  unfold order_invariant in *.
  destruct (fs CSV_FILE) as [[df_exist | txt] |] eqn:Hfs.
  - destruct (no_rows df_exist); [now rewrite files_of, Hfs|].
    destruct (empty _); unfold files; cbn [fst snd].
    + now rewrite Hfs.
    + rewrite write_same.
      apply append_strict;
        [exact Hinv | exact (new_data_nodup _ _ _ Hc Hv Hnew)].
  - unfold files; cbn [fst snd]. now rewrite Hfs.
  - unfold files; cbn [fst snd]. rewrite write_same.
    exact (new_data_strict _ _ _ Hc Hv Hnew).
Qed.

Lemma main_header_invariant e fs :
  header_invariant fs -> header_invariant (files (main e fs)).
Proof.
  intros Hinv. destruct (preflight e) as [token|] eqn:Hpre.
  - unfold header_invariant. rewrite (main_csv_entry e fs token Hpre).
    now apply fetch_header_invariant.
  - now destruct (main_rejected e fs Hpre) as [-> | ->].
Qed.

Lemma main_order_invariant e fs :
  one_record_per_date (network e) ->
  order_invariant fs -> order_invariant (files (main e fs)).
Proof.
  intros Hnet Hinv. destruct (preflight e) as [token|] eqn:Hpre.
  - unfold order_invariant. rewrite (main_csv_entry e fs token Hpre).
    now apply fetch_order_invariant.
  - now destruct (main_rejected e fs Hpre) as [-> | ->].
Qed.

Lemma run_all_header_invariant history fs :
  header_invariant fs -> header_invariant (run_all history fs).
Proof.
  revert fs. induction history as [|e history IH]; simpl; auto.
  intros fs H. now apply IH, main_header_invariant.
Qed.

Lemma run_all_order_invariant history fs :
  Forall (fun e => one_record_per_date (network e)) history ->
  order_invariant fs -> order_invariant (run_all history fs).
Proof.
  revert fs. induction history as [|e history IH]; simpl; auto.
  intros fs Hall H. inversion Hall; subst.
  apply IH; auto. now apply main_order_invariant.
Qed.

Lemma no_dataset_invariants fs :
  fs CSV_FILE = None -> header_invariant fs /\ order_invariant fs.
Proof.
  unfold header_invariant, order_invariant. now intros ->.
Qed.

(** C5: starting without a dataset, and as long as no fetched series
    holds two records of one calendar date, after every run that
    completes the dataset exists and its dates are strictly ascending,
    hence pairwise distinct; this covers the run that creates the file and
    every later run that appends to it. *)
Theorem dataset_strictly_ascending :
  forall history e fs,
    fs CSV_FILE = None ->
    Forall (fun e => one_record_per_date (network e)) (history ++ [e]) ->
    outcome (main e (run_all history fs)) = Ok tt ->
    exists df,
      files (main e (run_all history fs)) CSV_FILE = Some (Table df) /\
      StronglySorted date_lt (dates (rows df)) /\
      NoDup (dates (rows df)).
Proof.
  intros history e fs Hnone Hall Hdone.
  apply Forall_app in Hall. destruct Hall as [Hhist He].
  inversion He as [|? ? Hnet _]; subst.
  destruct (no_dataset_invariants fs Hnone) as [_ Hord].
  pose proof (main_order_invariant e _ Hnet
                (run_all_order_invariant history fs Hhist Hord)) as Hinv.
  destruct (completed_run_dataset e (run_all history fs) Hdone)
    as [df Hdf].
  exists df. split; [exact Hdf|].
  unfold order_invariant in Hinv. rewrite Hdf in Hinv.
  split; [exact Hinv | now apply sorted_lt_nodup].
Qed.

Lemma sample_network_unique : one_record_per_date sample_network.
Proof. distinct_dates. Qed.

Lemma later_network_unique : one_record_per_date later_network.
Proof. distinct_dates. Qed.

Lemma dataset_strictly_ascending_witness :
  exists df,
    files (main later_env (run_all [sample_env] no_files)) CSV_FILE
      = Some (Table df) /\
    StronglySorted date_lt (dates (rows df)) /\
    NoDup (dates (rows df)).
Proof.
  apply (dataset_strictly_ascending [sample_env] later_env no_files).
  - reflexivity.
  - simpl. constructor; [exact sample_network_unique|].
    constructor; [exact later_network_unique | constructor].
  - reflexivity.
Defined.

(** C9, as stated, does not hold for every fetched series: when the clone
    series holds 01-01 twice, the file the first run creates has two data
    rows for 01-01. *)
Lemma repeated_date_persisted_twice :
  no_files CSV_FILE = None /\
  exists df,
    run_all [repeated_day_env] no_files CSV_FILE = Some (Table df) /\
    header_line df = "date,clones,clones_uniques,views,views_uniques" /\
    List.length (rows_on (jan 1) (rows df)) = 2%nat.
Proof.
  split; [reflexivity|]. eexists. repeat split.
Qed.

(** C9, amended: starting without a dataset, after any sequence of runs
    the persisted file, when there is one, is a table whose header line is
    [date,clones,clones_uniques,views,views_uniques], whether the last
    write created the file or appended to it; and as long as no fetched
    series holds two records of one date, it holds one row per date. *)
Theorem dataset_header_fixed :
  forall history fs,
    fs CSV_FILE = None ->
    (forall f,
        run_all history fs CSV_FILE = Some f ->
        exists df,
          f = Table df /\
          columns df = csv_columns /\
          header_line df = "date,clones,clones_uniques,views,views_uniques") /\
    (Forall (fun e => one_record_per_date (network e)) history ->
     NoDup (dates (persisted (run_all history fs)))).
Proof.
  intros history fs Hnone.
  destruct (no_dataset_invariants fs Hnone) as [Hhead Hord].
  split.
  - intros f Hf.
    pose proof (run_all_header_invariant history fs Hhead) as Hinv.
    unfold header_invariant in Hinv. rewrite Hf in Hinv.
    destruct f as [df | txt]; [|contradiction].
    exists df. repeat split; auto.
    unfold header_line. now rewrite Hinv.
  - intros Hall.
    pose proof (run_all_order_invariant history fs Hall Hord) as Hinv.
    unfold order_invariant in Hinv. unfold persisted.
    destruct (run_all history fs CSV_FILE) as [[df | txt] |];
      try constructor.
    now apply sorted_lt_nodup.
Qed.

Lemma dataset_header_fixed_witness :
  exists df,
    run_all [sample_env; later_env] no_files CSV_FILE = Some (Table df) /\
    header_line df = "date,clones,clones_uniques,views,views_uniques".
Proof.
  destruct (proj1 (dataset_header_fixed [sample_env; later_env] no_files
                     eq_refl) _ eq_refl)
    as (df & Hdf & _ & Hline).
  exists df. split; [|exact Hline].
  rewrite <- Hdf. reflexivity.
Defined.

(** ** Completeness of the outer join *)

Lemma with_date_series (l : list RawRecord) :
  l <> [] -> with_date l = Ok (map series_row l).
Proof. apply with_date_Ok. Qed.

Lemma series_dates_map (l : list RawRecord) :
  series_dates (map series_row l) = map record_date l.
Proof. unfold series_dates. rewrite map_map. reflexivity. Qed.

Lemma matching_map d (l : list RawRecord) :
  matching d (map series_row l) = map series_row (records_on d l).
Proof.
  unfold matching, records_on. induction l as [|r l IH]; simpl; auto.
  destruct (date_eqb (record_date r) d); simpl; now rewrite IH.
Qed.

Lemma rows_on_join_left d right l :
  rows_on d (join_left right l) =
    if date_eqb (s_date l) d then join_left right l else [].
Proof.
  pose proof (join_left_dates right l) as Hall.
  unfold rows_on. induction (join_left right l) as [|r rs IH].
  - now destruct (date_eqb (s_date l) d).
  - inversion Hall as [|? ? Hr Hrs]; subst. cbn [filter]. rewrite Hr.
    rewrite (IH Hrs). now destruct (date_eqb (s_date l) d).
Qed.

Lemma rows_on_flat_map_join d left right :
  rows_on d (flat_map (join_left right) left) =
    flat_map (join_left right) (matching d left).
Proof.
  unfold matching. induction left as [|l left IH]; [reflexivity|].
  cbn [flat_map filter]. rewrite rows_on_app, rows_on_join_left, IH.
  now destruct (date_eqb (s_date l) d).
Qed.

Lemma rows_on_right_only d left right :
  rows_on d (right_only left right) =
    if isin d (series_dates left) then []
    else map (fun r => mkRow (s_date r) None None
                         (Some (s_count r)) (Some (s_uniques r)))
             (matching d right).
Proof.
  unfold right_only, matching, rows_on.
  induction right as [|r right IH]; cbn [filter map].
  - now destruct (isin d (series_dates left)).
  - destruct (isin (s_date r) (series_dates left)) eqn:Er;
      destruct (date_eqb (s_date r) d) eqn:Ed;
      cbn [negb filter map date]; rewrite ?Ed, IH; try reflexivity.
    + apply date_eqb_eq in Ed. subst d. now rewrite Er.
    + apply date_eqb_eq in Ed. subst d. now rewrite Er.
Qed.

(** The rows of the new-data table for one date. *)
Lemma new_data_rows_on clones views df d :
  new_data clones views = Ok df ->
  rows_on d (rows df) =
    flat_map (join_left (map series_row views))
             (map series_row (records_on d clones)) ++
    (if isin d (map record_date clones) then []
     else map (fun r => mkRow (s_date r) None None
                          (Some (s_count r)) (Some (s_uniques r)))
              (map series_row (records_on d views))).
Proof.
  intros H. destruct clones as [|c clones]; [discriminate|].
  destruct views as [|v views]; [discriminate|].
  injection H as <-. cbn [rows set_columns sort_values merge_outer].
  rewrite rows_on_sort, rows_on_app, rows_on_flat_map_join,
    rows_on_right_only.
  change (mkSeries (to_date (timestamp c)) (count c) (uniques c)
            :: map (fun r => mkSeries (to_date (timestamp r)) (count r)
                               (uniques r)) clones)
    with (map series_row (c :: clones)).
  change (mkSeries (to_date (timestamp v)) (count v) (uniques v)
            :: map (fun r => mkSeries (to_date (timestamp r)) (count r)
                               (uniques r)) views)
    with (map series_row (v :: views)).
  now rewrite !matching_map, series_dates_map.
Qed.

Lemma records_on_In d l r : records_on d l = [r] -> In d (map record_date l).
Proof.
  intros H. assert (Hr : In r (records_on d l)) by (rewrite H; now left).
  apply filter_In in Hr. destruct Hr as [Hr E].
  apply date_eqb_eq in E. subst d. now apply in_map.
Qed.

Lemma records_on_absent d l : ~ In d (map record_date l) -> records_on d l = [].
Proof.
  unfold records_on. induction l as [|r l IH]; simpl; intros H; auto.
  destruct (date_eqb (record_date r) d) eqn:E.
  - apply date_eqb_eq in E. tauto.
  - apply IH. tauto.
Qed.

Lemma records_on_date d l r : records_on d l = [r] -> record_date r = d.
Proof.
  intros H. assert (Hr : In r (records_on d l)) by (rewrite H; now left).
  apply filter_In in Hr. now apply date_eqb_eq.
Qed.

(** C4, as stated, does not hold for every fetched series: a date that
    only the clone series has, but has twice, appears twice in the merged
    table. *)
Lemma duplicated_date_joined_twice :
  exists df,
    new_data twice_a_day [midnight 2 200 12] = Ok df /\
    In (jan 1) (map record_date twice_a_day) /\
    ~ In (jan 1) (map record_date [midnight 2 200 12]) /\
    List.length (rows_on (jan 1) (rows df)) = 2%nat.
Proof.
  eexists. split; [reflexivity|]. split; [now left|]. split.
  - simpl. intros [H | []]. discriminate.
  - reflexivity.
Qed.

(** C4, amended: for non-empty clone and view series whose counts are in
    the range float64 carries exactly, the new-data table is their full
    outer join on the calendar date.  Its dates are those of either
    series; a date that one series has in exactly one record and the
    other series lacks appears in exactly one row, with the metrics of the
    lacking side null; a date that each series has in exactly one record
    appears in exactly one row carrying both pairs of metrics. *)
Theorem outer_join_completeness :
  forall clones views,
    clones <> [] -> views <> [] ->
    Forall exact_record clones -> Forall exact_record views ->
    exists df,
      new_data clones views = Ok df /\
      (forall d, In d (dates (rows df)) <->
                 In d (map record_date clones) \/
                 In d (map record_date views)) /\
      (forall d c,
          records_on d clones = [c] -> ~ In d (map record_date views) ->
          rows_on d (rows df) =
            [mkRow d (Some (count c)) (Some (uniques c)) None None]) /\
      (forall d v,
          records_on d views = [v] -> ~ In d (map record_date clones) ->
          rows_on d (rows df) =
            [mkRow d None None (Some (count v)) (Some (uniques v))]) /\
      (forall d c v,
          records_on d clones = [c] -> records_on d views = [v] ->
          rows_on d (rows df) =
            [mkRow d (Some (count c)) (Some (uniques c))
                   (Some (count v)) (Some (uniques v))]).
Proof.
  intros clones views Hc Hv _ _.
  assert (Hnew : new_data clones views =
                 Ok (set_columns csv_columns
                       (sort_values (merge_outer (map series_row clones)
                                                 (map series_row views))))).
  { unfold new_data.
    now rewrite (with_date_series clones Hc), (with_date_series views Hv). }
  eexists. split; [exact Hnew|]. split; [|split; [|split]].
  - intros d. cbn [rows set_columns sort_values]. unfold dates at 1.
    split.
    + intros H. apply in_map_iff in H. destruct H as [r [<- Hr]].
      apply (proj1 (sort_rows_In _ _)) in Hr.
      rewrite <- !series_dates_map. apply merge_outer_dates.
      unfold dates. now apply in_map.
    + intros H. rewrite <- !series_dates_map in H.
      apply merge_outer_dates in H. unfold dates in H.
      apply in_map_iff in H. destruct H as [r [<- Hr]].
      apply in_map. now apply (proj2 (sort_rows_In _ _)).
  - intros d c Hd Hnot. rewrite (new_data_rows_on _ _ _ d Hnew), Hd.
    apply records_on_In in Hd as Hin. apply isin_In in Hin. rewrite Hin.
    cbn [map flat_map]. unfold join_left. cbn [series_row s_date].
    rewrite (records_on_date _ _ _ Hd), matching_map,
      (records_on_absent _ _ Hnot).
    reflexivity.
  - intros d v Hd Hnot. rewrite (new_data_rows_on _ _ _ d Hnew), Hd.
    rewrite (records_on_absent _ _ Hnot).
    apply isin_not_In in Hnot. rewrite Hnot.
    cbn [map flat_map app series_row s_date s_count s_uniques].
    now rewrite (records_on_date _ _ _ Hd).
  - intros d c v Hdc Hdv. rewrite (new_data_rows_on _ _ _ d Hnew), Hdc.
    apply records_on_In in Hdc as Hin. apply isin_In in Hin. rewrite Hin.
    cbn [map flat_map]. unfold join_left. cbn [series_row s_date].
    rewrite (records_on_date _ _ _ Hdc), matching_map, Hdv.
    reflexivity.
Qed.

Lemma outer_join_completeness_witness :
  exists df,
    new_data sample_clones sample_views = Ok df /\
    rows_on (jan 1) (rows df) = [mkRow (jan 1) (Some 10) (Some 1) None None] /\
    rows_on (jan 4) (rows df) =
      [mkRow (jan 4) None None (Some 400) (Some 14)].
Proof.
  destruct (outer_join_completeness sample_clones sample_views)
    as (df & Hdf & _ & Hclones & Hviews & _);
    try discriminate; try exact_values.
  exists df. split; [exact Hdf|]. split.
  - apply (Hclones (jan 1) (midnight 1 10 1)); [reflexivity|].
    simpl. intuition discriminate.
  - apply (Hviews (jan 4) (midnight 4 400 14)); [reflexivity|].
    simpl. intuition discriminate.
Defined.

(** * Further properties of the script *)

(** ** What the report is rendered from *)




(** ** The merge step, seen from the dates *)

Lemma new_data_dates cl vw df d :
  new_data cl vw = Ok df ->
  In d (dates (rows df)) <->
  In d (map record_date cl) \/ In d (map record_date vw).
Proof.
  intros H. apply new_data_inv in H.
  destruct H as (df_cl & df_vw & Hcl & Hvw & _ & ->).
  apply with_date_dates in Hcl, Hvw. rewrite <- Hcl, <- Hvw.
  rewrite <- merge_outer_dates. unfold dates.
  split; intros Hin; apply in_map_iff in Hin;
    destruct Hin as [r [<- Hr]]; apply in_map.
  - now apply (proj1 (sort_rows_In _ _)).
  - now apply (proj2 (sort_rows_In _ _)).
Qed.


Lemma nothing_selected df_exist df_new :
  columns df_new <> [] ->
  empty (new_rows df_exist df_new) = true ->
  forall r, In r (rows df_new) -> In (date r) (dates (rows df_exist)).
Proof.
  unfold empty. cbn [columns rows new_rows select_rows].
  destruct (columns df_new); [congruence|]. intros _ Hempty r Hr.
  destruct (isin (date r) (dates (rows df_exist))) eqn:E;
    [now apply isin_In|].
  assert (Hin : In r (filter (fun r => negb (isin (date r)
                                 (dates (rows df_exist)))) (rows df_new)))
    by (apply filter_In; split; [exact Hr | cbv beta; now rewrite E]).
  destruct (filter _ (rows df_new)); [contradiction | discriminate].
Qed.

(** X2: when the merge step returns, the dates of the table it returns
    (the persisted one) are the dates persisted before together with the
    dates of the two fetched series: no fetched date is left out and no
    other date comes in. *)
Theorem persisted_dates_after_merge :
  forall net owner repo token fs cl vw df,
    traffic_clones net (clones_url owner repo) token = Reply cl ->
    traffic_views net (views_url owner repo) token = Reply vw ->
    outcome (fetch_and_update_csv net owner repo token fs) = Ok df ->
    forall d,
      In d (dates (rows df)) <->
      In d (dates (persisted fs)) \/
      In d (map record_date (get_or_empty cl)) \/
      In d (map record_date (get_or_empty vw)).
Proof.
  intros net owner repo token fs cl vw df Hc Hv.
  rewrite fetch_and_update_csv_cases. cbv zeta. rewrite Hc, Hv.
  destruct (new_data _ _) as [df_new|] eqn:Hnew; [|discriminate].
  pose proof (new_data_columns _ _ _ Hnew) as Hcols.
  unfold persisted.
  destruct (fs CSV_FILE) as [[df_exist | txt] |] eqn:Hfs; try discriminate.
  - destruct (no_rows df_exist); [discriminate|].
    destruct (empty (new_rows df_exist df_new)) eqn:Hempty;
      unfold outcome; cbn [fst]; intros H d; injection H as <-.
    + split; [tauto|]. intros [H | H]; [exact H|].
      apply (new_data_dates _ _ _ d Hnew) in H. unfold dates in H.
      apply in_map_iff in H. destruct H as [r [<- Hr]].
      apply (nothing_selected df_exist df_new); auto.
      rewrite Hcols. discriminate.
    + rewrite <- (new_data_dates _ _ _ d Hnew).
      cbn [rows sort_values concat]. unfold dates at 1. split.
      * intros H. apply in_map_iff in H. destruct H as [r [<- Hr]].
        apply (proj1 (sort_rows_In _ _)), in_app_iff in Hr.
        destruct Hr as [Hr | Hr]; [left | right]; unfold dates.
        -- now apply in_map.
        -- apply filter_In in Hr. now apply in_map.
      * intros [H | H].
        -- unfold dates in H. apply in_map_iff in H.
           destruct H as [r [<- Hr]]. apply in_map.
           apply (proj2 (sort_rows_In _ _)), in_app_iff. now left.
        -- unfold dates in H. apply in_map_iff in H.
           destruct H as [r [<- Hr]].
           fold (dates (sort_rows (rows df_exist ++
                                   rows (new_rows df_exist df_new)))).
           change (In (date r)
                     (dates (rows (sort_values
                        (concat df_exist (new_rows df_exist df_new)))))).
           now apply appended_covers.
  - unfold outcome; cbn [fst]; intros H d; injection H as <-.
    rewrite (new_data_dates _ _ _ d Hnew). simpl. tauto.
Qed.

Lemma persisted_dates_after_merge_witness :
  exists df,
    outcome (fetch_and_update_csv later_network "merce-fra" "PELCA" "t0k3n"
               (files (main sample_env no_files))) = Ok df /\
    In (jan 1) (dates (rows df)) /\ In (jan 5) (dates (rows df)).
Proof.
  eexists. split; [reflexivity|].
  split;
    apply (persisted_dates_after_merge later_network "merce-fra" "PELCA"
             "t0k3n" (files (main sample_env no_files)) _ _ _
             eq_refl eq_refl eq_refl).
  - left. left. reflexivity.
  - right. left. right. left. reflexivity.
Defined.

Lemma sort_rows_length l : List.length (sort_rows l) = List.length l.
Proof. apply Permutation_length, sort_rows_perm. Qed.

(** X3: the row counts the merge step prints are real.  "CSV created with
    n rows" is printed only when there was no file, and then the file
    holds n rows, n at least 1; "n new rows added" is printed only with n
    at least 1, and then the file holds n rows more than before. *)
Theorem printed_counts_are_growth :
  forall net owner repo token fs n,
    let step := fetch_and_update_csv net owner repo token fs in
    (In (Print (MsgCreated n)) (effects step) ->
     fs CSV_FILE = None /\
     (0 < n)%nat /\
     List.length (persisted (files step)) = n) /\
    (In (Print (MsgAdded n)) (effects step) ->
     (0 < n)%nat /\
     List.length (persisted (files step))
       = (List.length (persisted fs) + n)%nat).
Proof.
  intros net owner repo token fs n step. subst step.
  rewrite fetch_and_update_csv_cases. cbv zeta.
  destruct (traffic_clones net _ token); try (split; no_such_event).
  destruct (traffic_views net _ token); try (split; no_such_event).
  destruct (new_data _ _) as [df_new|] eqn:Hnew; try (split; no_such_event).
  unfold persisted at 3.
  destruct (fs CSV_FILE) as [[df_exist | txt] |] eqn:Hfs;
    try (split; no_such_event).
  - destruct (no_rows df_exist); [split; no_such_event|].
    destruct (empty (new_rows df_exist df_new)) eqn:Hempty;
      try (split; no_such_event).
    unfold effects, files; cbn [fst snd]. split; [no_such_event|].
    intros Hin.
    assert (E : n = List.length (rows (new_rows df_exist df_new))).
    { simpl in Hin.
      repeat (destruct Hin as [Hin | Hin]; try discriminate).
      - now injection Hin as <-.
      - contradiction. }
    subst n. unfold persisted. rewrite write_same.
    cbn [rows sort_values concat]. rewrite sort_rows_length, length_app.
    split; [|reflexivity].
    unfold empty in Hempty.
    destruct (columns (new_rows df_exist df_new)); [discriminate|].
    destruct (rows (new_rows df_exist df_new)); [discriminate|].
    simpl. lia.
  - unfold effects, files; cbn [fst snd]. split; [|no_such_event].
    intros Hin.
    assert (E : n = List.length (rows df_new)).
    { simpl in Hin.
      repeat (destruct Hin as [Hin | Hin]; try discriminate).
      - now injection Hin as <-.
      - contradiction. }
    subst n. unfold persisted. rewrite write_same.
    repeat split.
    pose proof (new_data_has_rows _ _ _ Hnew).
    destruct (rows df_new); [congruence | simpl; lia].
Qed.

Lemma printed_counts_are_growth_witness :
  let fs := files (main sample_env no_files) in
  let step :=
    fetch_and_update_csv later_network "merce-fra" "PELCA" "t0k3n" fs in
  In (Print (MsgAdded 1)) (effects step) /\
  List.length (persisted (files step)) = (List.length (persisted fs) + 1)%nat.
Proof.
  cbv zeta.
  assert (H : In (Print (MsgAdded 1))
                 (effects (fetch_and_update_csv later_network "merce-fra"
                             "PELCA" "t0k3n"
                             (files (main sample_env no_files)))))
    by (vm_compute; tauto).
  split; [exact H|].
  exact (proj2 (proj2 (printed_counts_are_growth later_network "merce-fra"
                         "PELCA" "t0k3n"
                         (files (main sample_env no_files)) 1%nat) H)).
Defined.

(** ** Empty series *)

(** X4: one empty series is enough to stop the merge step.  When the
    clones body or the views body carries an empty list, or lacks its key,
    the call raises [KeyError: 'timestamp'] after the two requests,
    whatever the other series holds, and without looking at the
    persisted file. *)
Theorem one_empty_series_raises :
  forall net owner repo token fs cl vw,
    traffic_clones net (clones_url owner repo) token = Reply cl ->
    traffic_views net (views_url owner repo) token = Reply vw ->
    get_or_empty cl = [] \/ get_or_empty vw = [] ->
    fetch_and_update_csv net owner repo token fs =
      (Err (KeyError "timestamp"), fs,
       [HttpGet (clones_url owner repo); HttpGet (views_url owner repo)]).
Proof.
  intros net owner repo token fs cl vw Hc Hv Hempty.
  rewrite fetch_and_update_csv_cases. cbv zeta. rewrite Hc, Hv.
  destruct Hempty as [-> | ->].
  - now rewrite (proj1 (empty_side_raises _)).
  - now rewrite (proj2 (empty_side_raises _)).
Qed.

Lemma one_empty_series_raises_witness :
  fetch_and_update_csv
    (mkNetwork (fun _ _ => Reply None)
               (fun _ _ => Reply (Some sample_views))
               (fun _ _ => Reply []))
    "merce-fra" "PELCA" "t0k3n" no_files
  = (Err (KeyError "timestamp"), no_files,
     [HttpGet (clones_url "merce-fra" "PELCA");
      HttpGet (views_url "merce-fra" "PELCA")]).
Proof.
  apply (one_empty_series_raises _ _ _ _ _ None (Some sample_views));
    [reflexivity | reflexivity | left; reflexivity].
Defined.

(** ** Order of the written dataset *)

(** X5: whenever the merge step writes the dataset, the rows it writes
    are in ascending date order, rows found out of order in the existing
    file included.  (When it does not write, the file stays as it was.) *)
Theorem written_dataset_is_sorted :
  forall net owner repo token fs,
    let step := fetch_and_update_csv net owner repo token fs in
    In (FileWrite CSV_FILE) (effects step) ->
    StronglySorted date_le (dates (persisted (files step))).
Proof.
  intros net owner repo token fs step. subst step.
  rewrite fetch_and_update_csv_cases. cbv zeta.
  destruct (traffic_clones net _ token); try no_such_event.
  destruct (traffic_views net _ token); try no_such_event.
  destruct (new_data _ _) as [df_new|] eqn:Hnew; try no_such_event.
  destruct (fs CSV_FILE) as [[df_exist | txt] |] eqn:Hfs;
    try no_such_event.
  - destruct (no_rows df_exist); [no_such_event|].
    destruct (empty _); try no_such_event.
    intros _. unfold files, persisted; cbn [fst snd].
    rewrite write_same. apply sort_rows_sorted.
  - intros _. unfold files, persisted; cbn [fst snd].
    rewrite write_same. apply new_data_inv in Hnew.
    destruct Hnew as (df_cl & df_vw & _ & _ & _ & ->).
    apply sort_rows_sorted.
Qed.

Lemma written_dataset_is_sorted_witness :
  let fs :=
    write CSV_FILE
      (Table (mkFrame csv_columns
                [mkRow (jan 3) (Some 3) (Some 1) None None;
                 mkRow (jan 1) (Some 1) (Some 1) None None])) no_files in
  let step :=
    fetch_and_update_csv sample_network "merce-fra" "PELCA" "t0k3n" fs in
  In (FileWrite CSV_FILE) (effects step) /\
  dates (persisted (files step)) = [jan 1; jan 2; jan 3; jan 4] /\
  StronglySorted date_le (dates (persisted (files step))).
Proof.
  cbv zeta. split; [vm_compute; tauto|]. split; [reflexivity|].
  apply (written_dataset_is_sorted sample_network "merce-fra" "PELCA"
           "t0k3n").
  vm_compute; tauto.
Defined.

(** ** What a run asks the platform and the file system *)

Lemma requests_app t1 t2 : requests (t1 ++ t2) = requests t1 ++ requests t2.
Proof.
  induction t1 as [|ev t1 IH]; [reflexivity|].
  destruct ev; simpl; now rewrite IH.
Qed.

Lemma fetch_requests net owner repo token fs :
  requests (effects (fetch_and_update_csv net owner repo token fs)) =
    match traffic_clones net (clones_url owner repo) token with
    | Reply _ => [clones_url owner repo; views_url owner repo]
    | _ => [clones_url owner repo]
    end.
Proof.
  rewrite fetch_and_update_csv_cases. cbv zeta.
  destruct (traffic_clones net _ token); try reflexivity.
  destruct (traffic_views net _ token); try reflexivity.
  destruct (new_data _ _); try reflexivity.
  destruct (fs CSV_FILE) as [[df_exist | txt] |]; try reflexivity.
  destruct (no_rows df_exist); [reflexivity|].
  destruct (empty _); reflexivity.
Qed.

(** X6: a run asks the platform at most three things, each once and in
    the order clones, views, referrers: the URLs it requests are a prefix
    of these three.  A run that completes has requested all three, a run
    stopped by the pre-flight checks none, and a run whose clones request
    fails only that one. *)
Theorem requests_follow_fixed_order :
  forall e fs,
    let all := [clones_url (owner_arg e) (repo_arg e);
                views_url (owner_arg e) (repo_arg e);
                referrers_url (owner_arg e) (repo_arg e)] in
    (exists n, requests (effects (main e fs)) = firstn n all) /\
    (outcome (main e fs) = Ok tt -> requests (effects (main e fs)) = all) /\
    (preflight e = None -> requests (effects (main e fs)) = []) /\
    (forall token,
        preflight e = Some token ->
        failed (traffic_clones (network e)
                  (clones_url (owner_arg e) (repo_arg e)) token) ->
        requests (effects (main e fs))
          = [clones_url (owner_arg e) (repo_arg e)]).
Proof.
  intros e fs all. subst all.
  destruct (preflight e) as [token|] eqn:Hpre.
  - pose proof (fetch_requests (network e) (owner_arg e) (repo_arg e)
                  token fs) as Hreq.
    pose proof (fetch_failed_request (network e) (owner_arg e) (repo_arg e)
                  token fs) as Hfail.
    fold (merge_step e token fs) in Hreq, Hfail.
    pose proof (main_accepted e fs token Hpre) as E. cbv zeta in E.
    destruct (outcome (merge_step e token fs)) as [df|x] eqn:Hstep.
    + assert (Hreply : ~ failed (traffic_clones (network e)
                           (clones_url (owner_arg e) (repo_arg e)) token)).
      { intros Hf. destruct Hfail as [y Hy]; auto. discriminate. }
      assert (Hboth : requests (effects (merge_step e token fs)) =
                      [clones_url (owner_arg e) (repo_arg e);
                       views_url (owner_arg e) (repo_arg e)]).
      { rewrite Hreq. destruct (traffic_clones _ _ _); try reflexivity;
          exfalso; apply Hreply; exact I. }
      destruct (popular_referrers _ _ _);
        [destruct (render e _ _ _ _ _)| |]; rewrite E;
        rewrite !effects_of, ?outcome_of, requests_app, Hboth;
        (split; [now exists 3%nat|]);
        (split; [try reflexivity; discriminate|]);
        (split; [discriminate|]);
        intros t Ht Hf; injection Ht as <-; contradiction.
    + rewrite E, !effects_of, ?outcome_of, Hreq.
      split; [|split; [discriminate | split; [discriminate|]]].
      * destruct (traffic_clones _ _ _);
          [now exists 2%nat | now exists 1%nat ..].
      * intros t Ht Hf. injection Ht as <-.
        now destruct (traffic_clones _ _ _).
  - destruct (main_rejected e fs Hpre) as [-> | ->];
      (split; [now exists 0%nat|]);
      (split; [discriminate|]); (split; [reflexivity|]); discriminate.
Qed.

Lemma requests_follow_fixed_order_witness :
  requests (effects (main sample_env no_files)) =
    [clones_url "merce-fra" "PELCA"; views_url "merce-fra" "PELCA";
     referrers_url "merce-fra" "PELCA"].
Proof.
  apply (proj1 (proj2 (requests_follow_fixed_order sample_env no_files))).
  reflexivity.
Defined.




(** ** What the dataset depends on *)

(** X8: the persisted dataset does not depend on the referrers endpoint,
    on the clock or on the rendering.  Two runs from the same files, with
    the same arguments, token and answers to the clones and views
    requests, leave the same [traffic_data.csv], whatever the referrers
    endpoint answers (a failure included). *)
Theorem dataset_ignores_referrers_and_clock :
  forall args tok serve_clones serve_views referrers1 referrers2
         now1 now2 render1 render2 fs,
    files (main (mkEnv args tok
                   (mkNetwork serve_clones serve_views referrers1)
                   now1 render1) fs) CSV_FILE =
    files (main (mkEnv args tok
                   (mkNetwork serve_clones serve_views referrers2)
                   now2 render2) fs) CSV_FILE.
Proof.
  intros.
  set (e1 := mkEnv args tok (mkNetwork serve_clones serve_views referrers1)
                   now1 render1).
  set (e2 := mkEnv args tok (mkNetwork serve_clones serve_views referrers2)
                   now2 render2).
  destruct (preflight e1) as [token|] eqn:Hpre.
  - assert (Hpre2 : preflight e2 = Some token) by exact Hpre.
    rewrite (main_csv_entry e1 fs token Hpre),
      (main_csv_entry e2 fs token Hpre2).
    unfold merge_step. now rewrite !fetch_and_update_csv_cases.
  - assert (Hpre2 : preflight e2 = None) by exact Hpre.
    destruct (main_rejected e1 fs Hpre) as [-> | ->];
      destruct (main_rejected e2 fs Hpre2) as [-> | ->]; reflexivity.
Qed.

(** X9: a run depends on the platform only through the answers to its
    three requests.  With another platform that gives the same three
    answers to the same token, the run has the same outcome, leaves the
    same files and performs the same effects. *)
Theorem run_depends_on_three_answers :
  forall e net fs token,
    preflight e = Some token ->
    traffic_clones net (clones_url (owner_arg e) (repo_arg e)) token =
      traffic_clones (network e)
        (clones_url (owner_arg e) (repo_arg e)) token ->
    traffic_views net (views_url (owner_arg e) (repo_arg e)) token =
      traffic_views (network e)
        (views_url (owner_arg e) (repo_arg e)) token ->
    popular_referrers net (referrers_url (owner_arg e) (repo_arg e)) token =
      popular_referrers (network e)
        (referrers_url (owner_arg e) (repo_arg e)) token ->
    main (with_network e net) fs = main e fs.
Proof.
  intros e net fs token Hpre Hc Hv Hr.
  assert (Hpre2 : preflight (with_network e net) = Some token) by exact Hpre.
  rewrite (main_accepted e fs token Hpre),
    (main_accepted (with_network e net) fs token Hpre2).
  cbv zeta.
  assert (Hstep : merge_step (with_network e net) token fs
                  = merge_step e token fs).
  { unfold merge_step, with_network, owner_arg, repo_arg in *.
    cbn [network argv] in *.
    rewrite !fetch_and_update_csv_cases. cbv zeta. now rewrite Hc, Hv. }
  rewrite Hstep.
  unfold with_network, owner_arg, repo_arg in *. cbn [network argv now render] in *.
  now rewrite Hr.
Qed.

Lemma run_depends_on_three_answers_witness :
  main (with_network sample_env
          (mkNetwork
             (fun url _ =>
                if String.eqb url (clones_url "merce-fra" "PELCA")
                then Reply (Some sample_clones) else Failure 404)
             (traffic_views sample_network)
             (popular_referrers sample_network))) no_files
  = main sample_env no_files.
Proof.
  apply (run_depends_on_three_answers sample_env _ no_files "t0k3n");
    reflexivity.
Defined.

(** ** Where the metrics of the new-data table come from *)

Lemma matching_In d l x :
  In x (matching d l) -> In x l /\ s_date x = d.
Proof.
  unfold matching. intros H. apply filter_In in H.
  destruct H as [H E]. now apply date_eqb_eq in E.
Qed.

Lemma matching_none d l : matching d l = [] -> ~ In d (series_dates l).
Proof.
  unfold matching, series_dates. intros H Hin. apply in_map_iff in Hin.
  destruct Hin as [x [<- Hx]].
  assert (Hf : In x (filter (fun r => date_eqb (s_date r) (s_date x)) l))
    by (apply filter_In; split; [exact Hx | apply date_eqb_refl]).
  rewrite H in Hf. contradiction.
Qed.

Lemma with_date_In cl df_cl x :
  with_date cl = Ok df_cl -> In x df_cl ->
  exists rec, In rec cl /\ x = series_row rec.
Proof.
  destruct cl as [|c cl]; [discriminate|]. intros H; injection H as <-.
  intros Hx. change (In x (map series_row (c :: cl))) in Hx.
  apply in_map_iff in Hx. destruct Hx as [rec [<- Hrec]]. eauto.
Qed.

(** X10: no metric of the new-data table is made up.  For fetched counts
    in the range float64 carries exactly: in every row, the clones pair is
    the count and uniques of a fetched clone record of the row's date, or
    is null, and it is null only when the clone series has no record for
    that date; the same holds for the views pair.  This needs no
    assumption on repeated dates. *)
Theorem merged_metrics_come_from_records :
  forall cl vw df r,
    Forall exact_record cl -> Forall exact_record vw ->
    new_data cl vw = Ok df ->
    In r (rows df) ->
    metrics_from cl (date r) (clones r) (clones_uniques r) /\
    metrics_from vw (date r) (views r) (views_uniques r).
Proof.
  intros cl vw df r _ _ Hnew Hr. apply new_data_inv in Hnew.
  destruct Hnew as (df_cl & df_vw & Hcl & Hvw & _ & E).
  rewrite E in Hr. apply (proj1 (sort_rows_In _ _)) in Hr.
  pose proof (with_date_dates _ _ Hcl) as Hdc.
  pose proof (with_date_dates _ _ Hvw) as Hdv.
  cbn [rows merge_outer] in Hr. apply in_app_iff in Hr.
  destruct Hr as [Hr | Hr].
  - apply in_flat_map in Hr. destruct Hr as [l [Hl Hr]].
    destruct (with_date_In _ _ _ Hcl Hl) as [rec [Hrec ->]].
    unfold join_left in Hr. cbn [series_row s_date s_count s_uniques] in Hr.
    destruct (matching (record_date rec) df_vw) as [|m ms] eqn:Hm.
    + destruct Hr as [<- | []]. cbn. split.
      * exists rec. auto.
      * rewrite <- Hdv. now apply matching_none.
    + apply in_map_iff in Hr. destruct Hr as [x [<- Hx]].
      rewrite <- Hm in Hx. apply matching_In in Hx.
      destruct Hx as [Hx Hd].
      destruct (with_date_In _ _ _ Hvw Hx) as [rec' [Hrec' ->]].
      cbn. split.
      * exists rec. auto.
      * exists rec'. auto.
  - unfold right_only in Hr. apply in_map_iff in Hr.
    destruct Hr as [x [<- Hx]]. apply filter_In in Hx.
    destruct Hx as [Hx Hnot].
    apply negb_true_iff, isin_not_In in Hnot.
    destruct (with_date_In _ _ _ Hvw Hx) as [rec' [Hrec' ->]].
    cbn. split.
    + now rewrite <- Hdc.
    + exists rec'. auto.
Qed.

Lemma merged_metrics_come_from_records_witness :
  metrics_from twice_a_day (jan 2) None None /\
  metrics_from [midnight 2 200 12] (jan 2) (Some 200) (Some 12).
Proof.
  refine (merged_metrics_come_from_records twice_a_day [midnight 2 200 12]
            _ (mkRow (jan 2) None None (Some 200) (Some 12))
            _ _ eq_refl (or_intror (or_intror (or_introl eq_refl))));
    unfold twice_a_day; exact_values.
Defined.

(** ** Exit status *)



(** ** Histories of runs *)




